(** * go-spa: endpoint dispatch and the password-reset token workflow

    A shallow embedding of
      - [backend/context/context.go]   (module [Context]): key loading,
        endpoint registration and the per-request dispatcher;
      - [backend/account/reset-token-api.go] (module [Account]): the three
        handlers of the password-reset flow.

    Conventions.  Go functions that mutate package-level variables or the
    shared [*Context] become state-passing functions.  A Go pair
    [(value, err)] is a Rocq pair whose second component is [option string]
    ([None] is Go's [nil] error).  [http.ResponseWriter] is the list of
    (status, body) pairs written to it, oldest first.  Third-party packages
    (jwt-go, go-jwt-middleware, negroni, the JSON decoder, the services of the
    [account] package) are interfaces: type classes whose operations the
    theorems quantify over, with one concrete instance each for the running
    examples. *)

From Stdlib Require Import ZArith Lia Bool.
From stdpp Require Import base option gmap strings list pretty.

Local Open Scope Z_scope.

(** Go's [error] values are compared only against [nil] in this code, and
    printed; a message is all that is kept of them. *)
Abbreviation error := (option string) (only parsing).

(** [http.ResponseWriter]: everything written so far. *)
Abbreviation ResponseWriter := (list (Z * string)) (only parsing).

(** [http.Error(rw, msg, code)] *)
Definition http_Error (rw : ResponseWriter) (msg : string) (code : Z) : ResponseWriter :=
  rw ++ [(code, msg)].

Definition StatusOK : Z := 200.
Definition StatusBadRequest : Z := 400.
Definition StatusUnauthorized : Z := 401.
Definition StatusMethodNotAllowed : Z := 405.
Definition StatusInternalServerError : Z := 500.

(* ===================================================================== *)
(** ** backend/context/context.go                                        *)
(* ===================================================================== *)
Module Context.

(** [*http.Request], reduced to what the dispatcher reads. *)
Record Request := mkRequest {
  Method : string;
  Header : gmap string string;
  Body : string
}.

(** [*jwt.Token] as far as the dispatcher is concerned: it is stored, never
    inspected. *)
Record Token := mkToken {
  Raw : string;
  TokenValid : bool
}.

(** [jwt.Keyfunc] *)
Definition Keyfunc : Type := Token → list Byte.byte * error.

(** [i18n.TranslateFunc], identified by the two languages [MustTfunc] was
    given. *)
Record TranslateFunc := mkT {
  acceptLang : string;
  defaultLang : string
}.

(** The package-level variables [verifyKey], [signKey]; [endpoints] is kept
    next to them (see [Package]) because its element type mentions the
    handlers. *)
Record Keys := mkKeys {
  signKey : list Byte.byte;
  verifyKey : list Byte.byte
}.

(** [jwtmiddleware.Options]: the one field [New] sets.  The closure in the
    source reads the package variable [verifyKey] when it is called, so it
    is a function of the current [Keys]. *)
Record Options := mkOptions {
  ValidationKeyGetter : Keys → Keyfunc
}.

Record JWTMiddleware := mkJWTMiddleware {
  MOptions : Options
}.

(** The third-party JWT packages.
    - [jwt_ParseFromRequest] is [jwt.ParseFromRequest]: a token (possibly
      [nil]) and an error.
    - [jwtmiddleware_CheckJWT] is the decision of go-jwt-middleware's
      [CheckJWT] for a middleware built by [jwtmiddleware.New] from the given
      options: [None] when the request may proceed, [Some msg] when the
      middleware has answered the request itself with [msg]. *)
Class JWTLib := {
  jwt_ParseFromRequest : Request → Keyfunc → option Token * error;
  jwtmiddleware_CheckJWT : Options → Keys → Request → option string
}.

(** [type Context struct].  [Router] is threaded next to the context by
    [AddEndpoint] (the routes hold handlers that take the context, so the
    field cannot live inside the record); [Vars] maps names to values of the
    type [Value] standing for [interface{}]. *)
Record Context {Value : Type} := mkContext {
  Vars : gmap string Value;
  T : option TranslateFunc;
  CToken : option Token;
  middleware : JWTMiddleware
}.
Arguments Context : clear implicits.
Arguments mkContext {Value} _ _ _ _.

Section Dispatch.
Context {Value : Type} `{JWTLib}.

(** [type ContextHandler func(c *Context, rw http.ResponseWriter,
    req *http.Request) error] *)
Definition ContextHandler : Type :=
  Context Value → ResponseWriter → Request → ResponseWriter * error.

(** [type MethodHandlers map[string]ContextHandler] *)
Abbreviation MethodHandlers := (gmap string ContextHandler) (only parsing).

(** [func (handlers *MethodHandlers) IsAllowed(req *http.Request) bool]:
    a scan of the map's keys. *)
Definition IsAllowed (handlers : MethodHandlers) (req : Request) : bool :=
  existsb (λ kv, String.eqb (Method req) kv.1) (map_to_list handlers).

(** [type Endpoint struct].  Every handler stored in the map is a
    function; a nil func stored under a key, which Go's map type admits,
    is not represented. *)
Record Endpoint := mkEndpoint {
  Public : bool;
  Path : string;
  Handlers : gmap string ContextHandler
}.

(** What one request observes and changes: the package variables (read
    only while serving), the shared [*Context], the response writer, and a
    ghost log of the dispatch steps taken, used to state ordering
    properties. *)
Inductive Event :=
  | EvCheckJWT (req : Request)
  | EvParseFromRequest (req : Request)
  | EvHandler (method : string) (token : option Token)
  | EvPanic.

Record Srv := mkSrv {
  keys : Keys;
  context : Context Value;
  rw : ResponseWriter;
  trace : list Event
}.

Definition set_rw (s : Srv) (w : ResponseWriter) : Srv :=
  mkSrv (keys s) (context s) w (trace s).
Definition set_context (s : Srv) (c : Context Value) : Srv :=
  mkSrv (keys s) c (rw s) (trace s).
Definition emit (s : Srv) (e : Event) : Srv :=
  mkSrv (keys s) (context s) (rw s) (trace s ++ [e]).

Definition set_Token (c : Context Value) (t : option Token) : Context Value :=
  mkContext (Vars c) (T c) t (middleware c).
Definition set_T (c : Context Value) (t : TranslateFunc) : Context Value :=
  mkContext (Vars c) (Some t) (CToken c) (middleware c).

(** [http.HandlerFunc] and negroni's [HandlerFunc] (which receives the rest
    of the chain as [next]). *)
Definition HttpHandler : Type := Request → Srv → Srv.
Definition NegroniHandler : Type := Request → HttpHandler → Srv → Srv.

(** [negroni.New(handlers...)]: each handler is given the remainder of the
    chain; the chain ends in a handler that does nothing. *)
Fixpoint negroni_New (handlers : list NegroniHandler) : HttpHandler :=
  match handlers with
  | [] => λ _ s, s
  | h :: rest => λ req s, h req (negroni_New rest) s
  end.

(** [negroni.Wrap(h)]: run [h], then the rest of the chain. *)
Definition negroni_Wrap (h : HttpHandler) : NegroniHandler :=
  λ req next s, next req (h req s).

(** go-jwt-middleware's [HandlerWithNext]: check the credential; call
    [next] only if the check raised no error, otherwise the response has
    been written by the middleware's error handler (by default
    [http.Error(w, msg, http.StatusUnauthorized)]). *)
Definition HandlerWithNext (m : JWTMiddleware) : NegroniHandler :=
  λ req next s,
    let s := emit s (EvCheckJWT req) in
    match jwtmiddleware_CheckJWT (MOptions m) (keys s) req with
    | None => next req s
    | Some msg => set_rw s (http_Error (rw s) msg StatusUnauthorized)
    end.

(** [func (c *Context) updateT(req *http.Request)] *)
Definition updateT (c : Context Value) (req : Request) : Context Value :=
  let acceptLang := default "" (Header req !! "Accept-Language") in
  let defaultLang := "en-US" in
  set_T c (mkT acceptLang defaultLang).

(** [func newContextHandler(context *Context, endpoint *Endpoint)
    http.HandlerFunc].  The captured [context] pointer is [context s].
    Calling a handler that the map does not hold is a nil-function call, a
    panic. *)
Definition newContextHandler (endpoint : Endpoint) : HttpHandler :=
  λ req s,
    if negb (IsAllowed (Handlers endpoint) req) then
      set_rw s (http_Error (rw s) "Method not allowed" StatusMethodNotAllowed)
    else
      let s :=
        if negb (Public endpoint) then
          let '(token, _) :=
            jwt_ParseFromRequest req
              (ValidationKeyGetter (MOptions (middleware (context s))) (keys s)) in
          emit (set_context s (set_Token (context s) token)) (EvParseFromRequest req)
        else s in
      let s := set_context s (updateT (context s) req) in
      match Handlers endpoint !! Method req with
      | None => emit s EvPanic
      | Some handler =>
          let s := emit s (EvHandler (Method req) (CToken (context s))) in
          let '(w, err) := handler (context s) (rw s) req in
          match err with
          | Some e => set_rw s (http_Error w e StatusBadRequest)
          | None => set_rw s w
          end
      end.

(** [*mux.Router]: a path prefix and the routes registered so far. *)
Record Router := mkRouter {
  prefix : string;
  routes : list (string * HttpHandler)
}.

Definition Router_Handle (r : Router) (path : string) (h : HttpHandler) : Router :=
  mkRouter (prefix r) (routes r ++ [(path, h)]).

(** [router.PathPrefix(p).Subrouter()] *)
Definition Router_Subrouter (r : Router) (p : string) : Router :=
  mkRouter (prefix r +:+ p) [].

(** The handler [AddEndpoint] registers for an endpoint: the context
    handler itself when the endpoint is public, otherwise a negroni chain
    with the JWT middleware in front of it. *)
Definition endpointHandler (c : Context Value) (endpoint : Endpoint) : HttpHandler :=
  let httpHandler := newContextHandler endpoint in
  if Public endpoint then httpHandler
  else negroni_New [HandlerWithNext (middleware c); negroni_Wrap httpHandler].

(** [func (c *Context) AddEndpoint(endpoint *Endpoint)] *)
Definition AddEndpoint (c : Context Value) (router : Router) (endpoint : Endpoint) : Router :=
  Router_Handle router (Path endpoint) (endpointHandler c endpoint).

(** [func (c *Context) AddEndpoints(endpoints ...*Endpoint)] *)
Definition AddEndpoints (c : Context Value) (router : Router) (endpoints : list Endpoint) : Router :=
  fold_left (AddEndpoint c) endpoints router.

(** The package-level variables. *)
Record Package := mkPackage {
  pkeys : Keys;
  endpoints : list Endpoint
}.

(** [func AddEndpoint(endpoint *Endpoint)] (package level) *)
Definition Package_AddEndpoint (p : Package) (endpoint : Endpoint) : Package :=
  mkPackage (pkeys p) (endpoints p ++ [endpoint]).

(** [func New(router *mux.Router, vars map[string]interface{})
    (c *Context, err error)] *)
Definition New (router : Router) (vars : gmap string Value) : Context Value * Router * error :=
  let options := mkOptions (λ k _, (verifyKey k, None)) in
  (mkContext vars None None (mkJWTMiddleware options), router, None).

(** [ioutil.ReadFile]: the file system is a function from paths to what
    the call returns. *)
Definition FileSystem : Type := string → list Byte.byte * error.

(** [func LoadSecureKeys(privateKeyPath, publicKeyPath string) (err error)].
    Each [ReadFile] assigns the package variable even when it fails. *)
Definition LoadSecureKeys (fs : FileSystem) (privateKeyPath publicKeyPath : string)
    (k : Keys) : Keys * error :=
  let '(data, err) := fs privateKeyPath in
  let k := mkKeys data (verifyKey k) in
  match err with
  | Some _ => (k, Some "Error reading private key")
  | None =>
      let '(data, err) := fs publicKeyPath in
      let k := mkKeys (signKey k) data in
      match err with
      | Some _ => (k, Some "Error reading public key")
      | None => (k, None)
      end
  end.

(** [func Configure(router *mux.Router, privKey, pubKey, pathPrefix string,
    vars map[string]interface{}) error].  The result of [LoadSecureKeys]
    is not bound to anything in the source.  Returned: the package
    variables, the context and the API router as [Configure] leaves them,
    and its error. *)
Definition Configure (fs : FileSystem) (p : Package) (router : Router)
    (privKey pubKey pathPrefix : string) (vars : gmap string Value)
    : Package * option (Context Value * Router) * error :=
  let apiRouter := Router_Subrouter router pathPrefix in
  let '(k, _) := LoadSecureKeys fs privKey pubKey (pkeys p) in
  let p := mkPackage k (endpoints p) in
  let '(ctx, apiRouter, err) := New apiRouter vars in
  match err with
  | Some e => (p, None, Some e)
  | None => (p, Some (ctx, AddEndpoints ctx apiRouter (endpoints p)), None)
  end.

(** The state in which the next request is served: the package variables
    and the shared [*Context] are as the previous request left them, the
    response writer is a new one. *)
Definition next_request (s : Srv) : Srv :=
  mkSrv (keys s) (context s) [] (trace s).

End Dispatch.

(** [func SignToken(token *jwt.Token) (string, error)]; [signedString] is
    jwt-go's [SignedString] method of the token. *)
Definition SignToken (signedString : Token → list Byte.byte → string * error)
    (k : Keys) (token : Token) : string * error :=
  signedString token (signKey k).

End Context.

(* ===================================================================== *)
(** ** backend/account/reset-token-api.go                                *)
(* ===================================================================== *)
Module Account.

(** What a service method returns, a pointer and an error of which exactly
    one is [nil]. *)
Inductive Result (A : Type) :=
  | Ok (a : A)
  | Err (msg : string).
Arguments Ok {A} _.
Arguments Err {A} _.

(** [type ValidKey struct] *)
Record ValidKey := mkValidKey {
  UserId : Z;
  Key : string
}.

(** Modelled from the spec: the declarations of [User], [ResetToken],
    [ResetTokenState] and [Valid] are in files of the [account] package
    other than reset-token-api.go.  The handlers read [user.Id],
    [user.Email], [user.Password], [resetToken.UserId], [resetToken.Key],
    [resetToken.State]; the remaining fields and [Valid] follow section 3 of
    the specification: a token is valid iff it is [Active] and the current
    time is before issued-at plus the time to live (24 hours, in seconds). *)
Record User := mkUser {
  Id : Z;
  Email : string;
  Password : string
}.

Inductive ResetTokenState := ResetTokenActive | ResetTokenInactive.

Record ResetToken := mkResetToken {
  TUserId : Z;
  TKey : string;
  State : ResetTokenState;
  IssuedAt : Z
}.

Definition TTL : Z := 24 * 3600.

Definition is_active (s : ResetTokenState) : bool :=
  match s with ResetTokenActive => true | ResetTokenInactive => false end.

Definition Valid (now : Z) (t : ResetToken) : bool :=
  is_active (State t) && (now <? IssuedAt t + TTL).

(** [resetToken.State = ResetTokenInactive] *)
Definition set_State (t : ResetToken) (s : ResetTokenState) : ResetToken :=
  mkResetToken (TUserId t) (TKey t) s (IssuedAt t).

(** The request forms.  [ResetPasswordForm] is declared elsewhere in the
    package; the handler reads its [Email]. *)
Record ResetPasswordForm := mkResetPasswordForm {
  FEmail : string
}.

Record ValidateKeyForm := mkValidateKeyForm {
  FKey : string
}.

Record ChangePasswordForm := mkChangePasswordForm {
  FPassword : string;
  FPasswordAgain : string;
  FValidKey : ValidKey
}.

(** [mail.Message] *)
Record Message := mkMessage {
  From : string;
  To : list string;
  Subject : string;
  MBody : string
}.

(** What a handler sends back through [ctx.OK], [ctx.BadRequest] and
    [ctx.InternalServerError]: a status and a JSON payload. *)
Inductive Payload :=
  | PString (s : string)
  | PValidKey (k : ValidKey)
  | PUser (u : User).

Record Response := mkResponse {
  status : Z;
  payload : Payload
}.

Definition ctx_OK (p : Payload) : Response := mkResponse StatusOK p.
Definition ctx_BadRequest (msg : string) : Response :=
  mkResponse StatusBadRequest (PString msg).
Definition ctx_InternalServerError (msg : string) : Response :=
  mkResponse StatusInternalServerError (PString msg).

(** The response both the validate and the complete step give for a key
    they do not accept. *)
Definition invalid_key : Response := ctx_BadRequest "Invalid Key".

(** The pure helpers the handlers use on a request body of type [Body]:
    [json.NewDecoder(req.Body).Decode(&form)] for each of the three forms
    (the form as the decoder left it, and its error), and
    [regexp.MustCompile(emailRegex).MatchString] ([emailRegex] is a constant
    declared elsewhere in the package). *)
Class Decoder (Body : Type) := {
  Decode_ResetPasswordForm : Body → ResetPasswordForm * error;
  Decode_ValidateKeyForm : Body → ValidateKeyForm * error;
  Decode_ChangePasswordForm : Body → ChangePasswordForm * error;
  emailRegex_MatchString : string → bool
}.

(** The effectful calls a handler makes, in the order of their receivers in
    the source: the user service, the reset-token service, the token's
    [Valid()] (it reads the clock), the password encoder, the mailer, the
    logger, and [go sendResetPasswordEmail(c, user)]. *)
Inductive Op :=
  | UserService_GetByEmail (email : string)
  | UserService_GetById (id : Z)
  | UserService_Update (user : User)
  | ResetTokenService_Create (userId : Z)
  | ResetTokenService_GetByKey (key : string)
  | ResetTokenService_Update (token : ResetToken)
  | ResetToken_Valid (token : ResetToken)
  | Password_Encode (user : User) (password : string)
  | Mail_Send (m : Message)
  | Log_Errorf (msg : string)
  | Go_sendResetPasswordEmail (user : User).

(** What each call returns. *)
Definition Res (o : Op) : Type :=
  match o with
  | UserService_GetByEmail _ => Result User
  | UserService_GetById _ => Result User
  | UserService_Update _ => error
  | ResetTokenService_Create _ => Result ResetToken
  | ResetTokenService_GetByKey _ => Result ResetToken
  | ResetTokenService_Update _ => error
  | ResetToken_Valid _ => bool
  | Password_Encode _ _ => Result User
  | Mail_Send _ => error
  | Log_Errorf _ => unit
  | Go_sendResetPasswordEmail _ => unit
  end.

(** A handler body: a finite tree of calls ending in the value returned. *)
Inductive Prog (A : Type) :=
  | Ret (a : A)
  | Do (o : Op) (k : Res o → Prog A).
Arguments Ret {A} _.
Arguments Do {A} _ _.

Notation "'call' x ← o ; k" := (Do o (λ x, k))
  (at level 10, x name, o at level 100, k at level 200,
   format "'[v' 'call'  x  ←  o ; '/' k ']'").
Notation "'call_' o ; k" := (Do o (λ _, k))
  (at level 10, o at level 100, k at level 200,
   format "'[v' 'call_'  o ; '/' k ']'").

Section Handlers.
Context {Body : Type} `{Decoder Body}.

(** [func sendResetPasswordEmail(c *ctx.Context, user *User)] *)
Definition sendResetPasswordEmail (user : User) : Prog unit :=
  call r ← ResetTokenService_Create (Id user);
  match r with
  | Err e => call_ Log_Errorf ("Unable to create a new reset token: " +:+ e); Ret ()
  | Ok resetToken =>
      let body :=
        "Access this link: " +:+ "http://localhost:3000/#/reset-password/step2/"
          +:+ TKey resetToken in
      call err ← Mail_Send (mkMessage "Go-SPA" [Email user] "Reset Password" body);
      match err with
      | Some e => call_ Log_Errorf ("Unable to send email: " +:+ e); Ret ()
      | None => Ret ()
      end
  end.

(** [func (r *ResetPasswordResource) POST(...) error] *)
Definition ResetPasswordResource_POST (body : Body) : Prog Response :=
  let '(form, err) := Decode_ResetPasswordForm body in
  match err with
  | Some e => Ret (ctx_BadRequest ("Could not query user: " +:+ e))
  | None =>
      if negb (emailRegex_MatchString (FEmail form)) then
        Ret (ctx_BadRequest "Invalid email address")
      else
        call r ← UserService_GetByEmail (FEmail form);
        match r with
        | Err _ => Ret (ctx_BadRequest "User not found")
        | Ok user =>
            call_ Go_sendResetPasswordEmail user;
            Ret (ctx_OK (PString "Email sent"))
        end
  end.

(** [func (r *ValidateKeyResource) POST(...) error].  In
    [err != nil || !resetToken.Valid()] the second operand is evaluated
    only when the lookup succeeded. *)
Definition ValidateKeyResource_POST (body : Body) : Prog Response :=
  let '(form, err) := Decode_ValidateKeyForm body in
  match err with
  | Some _ => Ret (ctx_BadRequest "Unable to validate key")
  | None =>
      call r ← ResetTokenService_GetByKey (FKey form);
      match r with
      | Err _ => Ret (ctx_BadRequest "Invalid Key")
      | Ok resetToken =>
          call valid ← ResetToken_Valid resetToken;
          if negb valid then Ret (ctx_BadRequest "Invalid Key")
          else Ret (ctx_OK (PValidKey (mkValidKey (TUserId resetToken) (FKey form))))
      end
  end.

(** [func (r *CompleteResource) POST(...) error] *)
Definition CompleteResource_POST (body : Body) : Prog Response :=
  let '(form, err) := Decode_ChangePasswordForm body in
  match err with
  | Some _ => Ret (ctx_BadRequest "Unable to change the password")
  | None =>
      if negb (String.eqb (FPassword form) (FPasswordAgain form)) then
        Ret (ctx_BadRequest "Passwords mismatch")
      else
        call r ← ResetTokenService_GetByKey (Key (FValidKey form));
        match r with
        | Err _ => Ret (ctx_BadRequest "Invalid Key")
        | Ok resetToken =>
            call valid ← ResetToken_Valid resetToken;
            if negb valid then Ret (ctx_BadRequest "Invalid Key")
            else
              call ru ← UserService_GetById (TUserId resetToken);
              match ru with
              | Err _ => Ret (ctx_InternalServerError "User not found")
              | Ok user =>
                  call re ← Password_Encode user (FPassword form);
                  match re with
                  | Err _ => Ret (ctx_InternalServerError "Could not change user password")
                  | Ok user =>
                      call err ← UserService_Update user;
                      match err with
                      | Some _ =>
                          Ret (ctx_InternalServerError "Could not change user password")
                      | None =>
                          let resetToken := set_State resetToken ResetTokenInactive in
                          call err ← ResetTokenService_Update resetToken;
                          match err with
                          | Some e =>
                              call_ Log_Errorf ("Unable to invalidate token: " +:+ e);
                              Ret (ctx_OK (PUser user))
                          | None => Ret (ctx_OK (PUser user))
                          end
                      end
                  end
              end
        end
  end.

(** A body that decodes to a complete request naming key [k], with the
    two passwords equal. *)
Definition completes (k : string) (body : Body) : Prop :=
  ∃ form, Decode_ChangePasswordForm body = (form, None) ∧
          FPassword form = FPasswordAgain form ∧
          Key (FValidKey form) = k.

End Handlers.

(** *** Running a handler *)

(** The collaborators behind the calls, over a state [World] holding the
    database, the clock and the outgoing mail.  Lookups do not change the
    world; writes return the new world and may fail. *)
Class Services (World : Type) := {
  time_Now : World → Z;
  users_GetByEmail : World → string → Result User;
  users_GetById : World → Z → Result User;
  users_Update : World → User → World * error;
  tokens_Create : World → Z → World * Result ResetToken;
  tokens_GetByKey : World → string → Result ResetToken;
  tokens_Update : World → ResetToken → World * error;
  password_Encode : User → string → Result User;
  mailer_Send : World → Message → World * error
}.

(** The world, the lines logged with [log.Errorf], and the goroutines
    started and not yet run. *)
Record Sys {World : Type} := mkSys {
  world : World;
  errlog : list string;
  spawned : list User
}.
Arguments Sys : clear implicits.
Arguments mkSys {World} _ _ _.

Definition is_Ok {A} (r : Result A) : bool :=
  match r with Ok _ => true | Err _ => false end.

Definition is_nil (e : error) : bool :=
  match e with None => true | Some _ => false end.

(** Whether a call reported success (for [Valid()]: its answer). *)
Definition succeeded (o : Op) : Res o → bool :=
  match o with
  | UserService_GetByEmail _ => is_Ok
  | UserService_GetById _ => is_Ok
  | UserService_Update _ => is_nil
  | ResetTokenService_Create _ => is_Ok
  | ResetTokenService_GetByKey _ => is_Ok
  | ResetTokenService_Update _ => is_nil
  | ResetToken_Valid _ => λ b, b
  | Password_Encode _ _ => is_Ok
  | Mail_Send _ => is_nil
  | Log_Errorf _ => λ _, true
  | Go_sendResetPasswordEmail _ => λ _, true
  end.

(** One entry of the call log: the call and whether it succeeded. *)
Abbreviation Entry := (Op * bool)%type (only parsing).

Section Semantics.
Context {World : Type} `{Services World}.

Definition with_world (s : Sys World) (w : World) : Sys World :=
  mkSys w (errlog s) (spawned s).

(** The effect of one call. *)
Definition perform (o : Op) : Sys World → Res o * Sys World :=
  match o with
  | UserService_GetByEmail email => λ s, (users_GetByEmail (world s) email, s)
  | UserService_GetById id => λ s, (users_GetById (world s) id, s)
  | UserService_Update user => λ s,
      let '(w, err) := users_Update (world s) user in (err, with_world s w)
  | ResetTokenService_Create userId => λ s,
      let '(w, r) := tokens_Create (world s) userId in (r, with_world s w)
  | ResetTokenService_GetByKey key => λ s, (tokens_GetByKey (world s) key, s)
  | ResetTokenService_Update token => λ s,
      let '(w, err) := tokens_Update (world s) token in (err, with_world s w)
  | ResetToken_Valid token => λ s, (Valid (time_Now (world s)) token, s)
  | Password_Encode user password => λ s, (password_Encode user password, s)
  | Mail_Send m => λ s,
      let '(w, err) := mailer_Send (world s) m in (err, with_world s w)
  | Log_Errorf msg => λ s, ((), mkSys (world s) (errlog s ++ [msg]) (spawned s))
  | Go_sendResetPasswordEmail user => λ s,
      ((), mkSys (world s) (errlog s) (spawned s ++ [user]))
  end.

(** A handler run from start to end with nothing in between: the value
    returned, the final state and the log of the calls made. *)
Fixpoint run {A} (p : Prog A) (s : Sys World) : A * Sys World * list Entry :=
  match p with
  | Ret a => (a, s, [])
  | Do o k =>
      let '(r, s1) := perform o s in
      let '(a, s2, tr) := run (k r) s1 in
      (a, s2, (o, succeeded o r) :: tr)
  end.

(** Requests served one after the other. *)
Fixpoint run_serial {A} (ps : list (Prog A)) (s : Sys World) : list A * Sys World :=
  match ps with
  | [] => ([], s)
  | p :: rest =>
      let '(a, s1, _) := run p s in
      let '(res, s2) := run_serial rest s1 in
      (a :: res, s2)
  end.

(** Requests served concurrently, one goroutine each.  A goroutine
    advances by one call at a time; the calls of different goroutines
    interleave in the order the schedule names them. *)
Definition step {A} (p : Prog A) (s : Sys World) : Prog A * Sys World :=
  match p with
  | Ret a => (Ret a, s)
  | Do o k => let '(r, s1) := perform o s in (k r, s1)
  end.

Fixpoint interleave {A} (schedule : list nat) (pool : list (Prog A)) (s : Sys World)
    : list (Prog A) * Sys World :=
  match schedule with
  | [] => (pool, s)
  | i :: rest =>
      match pool !! i with
      | None => interleave rest pool s
      | Some p =>
          let '(p1, s1) := step p s in
          interleave rest (<[i := p1]> pool) s1
      end
  end.

(** The token a key stands for at a state, if the lookup by key finds one
    and it is valid there. *)
Definition accepted (s : Sys World) (key : string) : option ResetToken :=
  match tokens_GetByKey (world s) key with
  | Err _ => None
  | Ok t => if Valid (time_Now (world s)) t then Some t else None
  end.

(** The value a goroutine has returned, if it has. *)
Definition returned {A} (p : Prog A) : option A :=
  match p with Ret a => Some a | Do _ _ => None end.

(** The schedule without interleaving: goroutine [i] makes all its calls,
    then goroutine [i + 1] all of its own, and so on. *)
Fixpoint serial_schedule {A} (i : nat) (pool : list (Prog A)) (s : Sys World) : list nat :=
  match pool with
  | [] => []
  | p :: rest =>
      let '(_, s1, calls) := run p s in
      replicate (length calls) i ++ serial_schedule (S i) rest s1
  end.

End Semantics.

End Account.

(* ===================================================================== *)
(** ** Reference instances of the interfaces                              *)
(* ===================================================================== *)

(** The JWT packages as [New] configures them.  Only [ValidationKeyGetter]
    is set, so go-jwt-middleware runs with its defaults: the token is
    taken from the [Authorization: Bearer] header, credentials are not
    optional, and its error handler answers 401.  Signature checking is
    reduced to its interface: a raw token verifies under a key iff it is
    the text [signed-with:] followed by that key. *)
Module JWTDefaults.
Import Context.

Definition sign (key : list Byte.byte) : string :=
  "signed-with:" +:+ String.string_of_list_byte key.

(** [jwt.Parse]: a token that does not verify is still returned, marked
    invalid, together with the error. *)
Definition jwt_Parse (raw : string) (keyFunc : Keyfunc) : option Token * error :=
  let t := mkToken raw false in
  match keyFunc t with
  | (_, Some e) => (Some t, Some e)
  | (key, None) =>
      if String.eqb raw (sign key) then (Some (mkToken raw true), None)
      else (Some t, Some "signature is invalid")
  end.

Definition bearer (req : Request) : option string :=
  match Header req !! "Authorization" with
  | None => None
  | Some ah =>
      if String.prefix "Bearer " ah
      then Some (String.substring 7 (String.length ah - 7) ah)
      else None
  end.

Definition ParseFromRequest (req : Request) (keyFunc : Keyfunc) : option Token * error :=
  match bearer req with
  | Some raw => jwt_Parse raw keyFunc
  | None => (None, Some "no token present in request")
  end.

Definition CheckJWT (o : Options) (k : Keys) (req : Request) : option string :=
  match Header req !! "Authorization" with
  | None => Some "Required authorization token not found"
  | Some _ =>
      match bearer req with
      | None => Some "Authorization header format must be Bearer {token}"
      | Some raw =>
          match jwt_Parse raw (ValidationKeyGetter o k) with
          | (_, Some e) => Some e
          | (None, None) => Some "The token isn't valid"
          | (Some t, None) => if TokenValid t then None else Some "The token isn't valid"
          end
      end
  end.

#[export] Instance lib : JWTLib := {|
  jwt_ParseFromRequest := ParseFromRequest;
  jwtmiddleware_CheckJWT := CheckJWT
|}.

(** A small configuration: keys read from two files, one protected and
    one public endpoint answering POST, and the context [New] builds. *)
Definition pem : list Byte.byte := [Byte.x70; Byte.x65; Byte.x6d].

Definition files : FileSystem :=
  λ path,
    if String.eqb path "keys/app.rsa" then (pem, None)
    else if String.eqb path "keys/app.rsa.pub" then (pem, None)
    else ([], Some "open: no such file or directory").

Definition no_files : FileSystem :=
  λ _, ([], Some "open: no such file or directory").

Definition hello : ContextHandler (Value := unit) :=
  λ _ w _, (w ++ [(StatusOK, "hello")], None).

Definition protected_endpoint : Endpoint (Value := unit) :=
  mkEndpoint false "/account/me" {[ "POST" := hello ]}.

Definition public_endpoint : Endpoint (Value := unit) :=
  mkEndpoint true "/account/reset-password" {[ "POST" := hello ]}.

Definition router0 : Router (Value := unit) := mkRouter "" [].

Definition package0 : Package (Value := unit) :=
  mkPackage (mkKeys [] []) [public_endpoint; protected_endpoint].

Definition ctx0 : Context unit := (New router0 ∅).1.1.

Definition srv0 : Srv (Value := unit) := mkSrv (mkKeys pem pem) ctx0 [] [].

Definition anonymous (method : string) : Request := mkRequest method ∅ "".

Definition with_bearer (method raw : string) : Request :=
  mkRequest method {[ "Authorization" := "Bearer " +:+ raw ]} "".

End JWTDefaults.

(** An in-memory world.

    Modelled from the spec: the user service, the reset-token service, the
    password encoder and the mailer are in files of the repository other
    than the two embedded here.  Section 4.3 of the specification gives
    the token store: [Create] stores a fresh [Active] token stamped with the
    current time under a new key, [GetByKey] is a point lookup that fails
    when no record has the key, [Update] persists the record under its key;
    a store that is unreachable fails its writes.  The user service is a
    lookup by email or by identifier and an update of the record with the
    same identifier. *)
Module Mem.
Import Account.

Record World := mkWorld {
  users : list User;
  tokens : gmap string ResetToken;
  clock : Z;
  issued : nat;
  outbox : list Message;
  users_down : bool;
  tokens_down : bool
}.

Definition GetByEmail (w : World) (email : string) : Result User :=
  match find (λ u, String.eqb (Email u) email) (users w) with
  | Some u => Ok u
  | None => Err "sql: no rows in result set"
  end.

Definition GetById (w : World) (id : Z) : Result User :=
  match find (λ u, Id u =? id) (users w) with
  | Some u => Ok u
  | None => Err "sql: no rows in result set"
  end.

Definition UpdateUser (w : World) (user : User) : World * error :=
  if users_down w then (w, Some "connection refused")
  else
    (mkWorld (map (λ u, if Id u =? Id user then user else u) (users w))
       (tokens w) (clock w) (issued w) (outbox w) (users_down w) (tokens_down w),
     None).

Definition fresh_key (n : nat) : string := "key-" +:+ pretty n.

Definition Create (w : World) (userId : Z) : World * Result ResetToken :=
  if tokens_down w then (w, Err "connection refused")
  else
    let t := mkResetToken userId (fresh_key (issued w)) ResetTokenActive (clock w) in
    (mkWorld (users w) (<[TKey t := t]> (tokens w)) (clock w) (S (issued w))
       (outbox w) (users_down w) (tokens_down w),
     Ok t).

Definition GetByKey (w : World) (key : string) : Result ResetToken :=
  match tokens w !! key with
  | Some t => Ok t
  | None => Err "sql: no rows in result set"
  end.

Definition UpdateToken (w : World) (t : ResetToken) : World * error :=
  if tokens_down w then (w, Some "connection refused")
  else
    (mkWorld (users w) (<[TKey t := t]> (tokens w)) (clock w) (issued w)
       (outbox w) (users_down w) (tokens_down w),
     None).

Definition Encode (user : User) (password : string) : Result User :=
  Ok (mkUser (Id user) (Email user) ("hash:" +:+ password)).

Definition Send (w : World) (m : Message) : World * error :=
  (mkWorld (users w) (tokens w) (clock w) (issued w) (outbox w ++ [m])
     (users_down w) (tokens_down w),
   None).

#[export] Instance services : Services World := {|
  time_Now := clock;
  users_GetByEmail := GetByEmail;
  users_GetById := GetById;
  users_Update := UpdateUser;
  tokens_Create := Create;
  tokens_GetByKey := GetByKey;
  tokens_Update := UpdateToken;
  password_Encode := Encode;
  mailer_Send := Send
|}.

(** Request bodies: text that is not JSON, or a JSON value.  A struct is
    decoded field by field; an absent field keeps its zero value and a
    field of the wrong JSON type is an error. *)
#[warnings="-register-all"]
Inductive JSON :=
  | JStr (s : string)
  | JNum (n : Z)
  | JObj (fields : list (string * JSON)).

Definition Body : Type := option JSON.

Definition field (j : JSON) (name : string) : option JSON :=
  match j with
  | JObj fields => snd <$> find (λ kv, String.eqb kv.1 name) fields
  | _ => None
  end.

Definition as_string (j : option JSON) : string * error :=
  match j with
  | None => ("", None)
  | Some (JStr s) => (s, None)
  | Some _ => ("", Some "json: cannot unmarshal into Go value of type string")
  end.

Definition as_int64 (j : option JSON) : Z * error :=
  match j with
  | None => (0, None)
  | Some (JNum n) => (n, None)
  | Some _ => (0, Some "json: cannot unmarshal into Go value of type int64")
  end.

Definition first_error (es : list error) : error :=
  default None (find (λ e, negb (is_nil e)) es).

Definition syntax_error : error := Some "invalid character looking for beginning of value".

Definition decode_ResetPasswordForm (b : Body) : ResetPasswordForm * error :=
  match b with
  | None => (mkResetPasswordForm "", syntax_error)
  | Some j =>
      let '(email, e) := as_string (field j "email") in
      (mkResetPasswordForm email, e)
  end.

Definition decode_ValidateKeyForm (b : Body) : ValidateKeyForm * error :=
  match b with
  | None => (mkValidateKeyForm "", syntax_error)
  | Some j =>
      let '(key, e) := as_string (field j "key") in
      (mkValidateKeyForm key, e)
  end.

Definition decode_ValidKey (j : option JSON) : ValidKey * error :=
  match j with
  | None => (mkValidKey 0 "", None)
  | Some (JObj fields) =>
      let '(userId, e1) := as_int64 (field (JObj fields) "userId") in
      let '(key, e2) := as_string (field (JObj fields) "key") in
      (mkValidKey userId key, first_error [e1; e2])
  | Some _ => (mkValidKey 0 "", Some "json: cannot unmarshal into Go value of type ValidKey")
  end.

Definition decode_ChangePasswordForm (b : Body) : ChangePasswordForm * error :=
  match b with
  | None => (mkChangePasswordForm "" "" (mkValidKey 0 ""), syntax_error)
  | Some j =>
      let '(password, e1) := as_string (field j "password") in
      let '(passwordAgain, e2) := as_string (field j "passwordAgain") in
      let '(validKey, e3) := decode_ValidKey (field j "validKey") in
      (mkChangePasswordForm password passwordAgain validKey, first_error [e1; e2; e3])
  end.

(** A stand-in for the package's [emailRegex]: something, an at sign,
    something. *)
Fixpoint has_at_inside (seen : bool) (s : string) : bool :=
  match s with
  | EmptyString => false
  | String c rest =>
      if Ascii.eqb c (Ascii.ascii_of_nat 64) then seen && negb (String.eqb rest "")
      else has_at_inside true rest
  end.

#[export] Instance decoder : Decoder Body := {|
  Decode_ResetPasswordForm := decode_ResetPasswordForm;
  Decode_ValidateKeyForm := decode_ValidateKeyForm;
  Decode_ChangePasswordForm := decode_ChangePasswordForm;
  emailRegex_MatchString := has_at_inside false
|}.

(** The requests of the three endpoints. *)
Definition reset_request (email : string) : Body :=
  Some (JObj [("email", JStr email)]).

Definition validate_request (key : string) : Body :=
  Some (JObj [("key", JStr key)]).

Definition complete_request (password passwordAgain : string) (userId : Z) (key : string)
    : Body :=
  Some (JObj [("password", JStr password); ("passwordAgain", JStr passwordAgain);
              ("validKey", JObj [("userId", JNum userId); ("key", JStr key)])]).

(** A world with one user, holding one active token issued at time 1000. *)
Definition alice : User := mkUser 1 "a@x.com" "hash:old".

Definition alice_token : ResetToken := mkResetToken 1 "k1" ResetTokenActive 1000.

Definition world0 : World :=
  mkWorld [alice] {[ "k1" := alice_token ]} 2000 0 [] false false.

(** The same world with the token store unreachable for writes. *)
Definition world_down : World :=
  mkWorld [alice] {[ "k1" := alice_token ]} 2000 0 [] false true.

(** The same world with the user store unreachable for writes. *)
Definition world_users_down : World :=
  mkWorld [alice] {[ "k1" := alice_token ]} 2000 0 [] true false.

(** The same world two days later. *)
Definition world_late : World :=
  mkWorld [alice] {[ "k1" := alice_token ]} (2000 + 2 * TTL) 0 [] false false.

Definition start (w : World) : Sys World := mkSys w [] [].

End Mem.

(* ===================================================================== *)
(** ** Properties of the dispatcher                                       *)
(* ===================================================================== *)
Module ContextFacts.
Import Context.

Section Facts.
Context {Value : Type} `{JWTLib}.

Implicit Types (c : Context Value) (s : Srv (Value := Value)).
Implicit Types (endpoint : Endpoint (Value := Value)) (req : Request).

(** The key scan of [IsAllowed] is a membership test. *)
Lemma IsAllowed_lookup (handlers : gmap string (ContextHandler (Value := Value))) req :
  IsAllowed handlers req = true ↔ is_Some (handlers !! Method req).
Proof.
  unfold IsAllowed. rewrite existsb_exists. split.
  - intros [[m h] [Hin Heq]]. apply String.eqb_eq in Heq. simpl in Heq. subst m.
    apply list_elem_of_In, elem_of_map_to_list in Hin. eauto.
  - intros [h Hh]. exists (Method req, h). split.
    + by apply list_elem_of_In, elem_of_map_to_list.
    + apply String.eqb_refl.
Qed.

Lemma IsAllowed_false (handlers : gmap string (ContextHandler (Value := Value))) req :
  IsAllowed handlers req = false ↔ handlers !! Method req = None.
Proof.
  rewrite <- not_true_iff_false, IsAllowed_lookup, eq_None_not_Some. tauto.
Qed.

(** The first thing [newContextHandler] does is the method check: a
    request with a method the endpoint does not handle is answered 405 and
    nothing else happens. *)
Lemma newContextHandler_not_allowed endpoint req s :
  IsAllowed (Handlers endpoint) req = false →
  newContextHandler endpoint req s =
    set_rw s (http_Error (rw s) "Method not allowed" StatusMethodNotAllowed).
Proof. intros Hna. unfold newContextHandler. by rewrite Hna. Qed.

(** The chain registered for a protected endpoint starts with the JWT
    middleware; the context handler runs only if the middleware lets the
    request through. *)
Lemma endpointHandler_protected c endpoint req s :
  Public endpoint = false →
  endpointHandler c endpoint req s =
    match jwtmiddleware_CheckJWT (MOptions (middleware c)) (keys s) req with
    | None => newContextHandler endpoint req (emit s (EvCheckJWT req))
    | Some msg =>
        set_rw (emit s (EvCheckJWT req)) (http_Error (rw s) msg StatusUnauthorized)
    end.
Proof.
  intros Hp. unfold endpointHandler. rewrite Hp. simpl.
  unfold HandlerWithNext, negroni_Wrap. by destruct (jwtmiddleware_CheckJWT _ _ _).
Qed.

Lemma endpointHandler_public c endpoint req s :
  Public endpoint = true →
  endpointHandler c endpoint req s = newContextHandler endpoint req s.
Proof. intros Hp. unfold endpointHandler. by rewrite Hp. Qed.

(** The handler lookup after a passed method check never hits a missing
    entry. *)
Lemma newContextHandler_no_panic endpoint req s :
  EvPanic ∉ trace s → EvPanic ∉ trace (newContextHandler endpoint req s).
Proof.
  intros Hs. unfold newContextHandler.
  destruct (IsAllowed (Handlers endpoint) req) eqn:Ha; [|done].
  apply IsAllowed_lookup in Ha as [handler Hh].
  destruct (Handlers endpoint !! Method req) as [handler1|] eqn:Hl; [|done].
  destruct (Public endpoint); simpl.
  2: destruct (jwt_ParseFromRequest _ _) as [token e]; simpl.
  all: destruct (handler1 _ _ _) as [w [e1|]]; simpl.
  all: intros Hin; repeat (apply elem_of_app in Hin as [Hin|Hin]).
  all: try (apply list_elem_of_singleton in Hin; discriminate Hin).
  all: contradiction.
Qed.

(** [New] never fails, and [Configure] has no other source of errors. *)
Lemma New_error (router : Router (Value := Value)) vars : (New router vars).2 = None.
Proof. reflexivity. Qed.

Lemma Configure_error fs (p : Package (Value := Value)) router privKey pubKey pathPrefix vars :
  (Configure fs p router privKey pubKey pathPrefix vars).2 = None.
Proof.
  unfold Configure. by destruct (LoadSecureKeys fs privKey pubKey (pkeys p)).
Qed.

(** [LoadSecureKeys] does report an unreadable key file. *)
Lemma LoadSecureKeys_error fs privKey pubKey k :
  (LoadSecureKeys fs privKey pubKey k).2 = None ↔
  (fs privKey).2 = None ∧ (fs pubKey).2 = None.
Proof.
  unfold LoadSecureKeys.
  destruct (fs privKey) as [d1 [e1|]]; simpl.
  { split; [discriminate | intros [? _]; discriminate]. }
  destruct (fs pubKey) as [d2 [e2|]]; simpl.
  { split; [discriminate | intros [_ ?]; discriminate]. }
  done.
Qed.

(** C3, as amended.  A request whose method is not in the endpoint's
    handler map: on a public endpoint it is answered 405 with no credential
    step at all; on a protected endpoint the JWT middleware checks the
    credential first, and the request is answered 405 only if the
    middleware lets it through, otherwise by the middleware with 401.  In
    neither case is [jwt.ParseFromRequest] called or a handler invoked, and
    the shared context is left as it was. *)
Theorem method_check_after_middleware c endpoint req s :
  IsAllowed (Handlers endpoint) req = false →
  let s1 := endpointHandler c endpoint req s in
  context s1 = context s ∧
  if Public endpoint then
    trace s1 = trace s ∧
    rw s1 = rw s ++ [(StatusMethodNotAllowed, "Method not allowed")]
  else
    trace s1 = trace s ++ [EvCheckJWT req] ∧
    match jwtmiddleware_CheckJWT (MOptions (middleware c)) (keys s) req with
    | None => rw s1 = rw s ++ [(StatusMethodNotAllowed, "Method not allowed")]
    | Some msg => rw s1 = rw s ++ [(StatusUnauthorized, msg)]
    end.
Proof.
  intros Hna. destruct (Public endpoint) eqn:Hp; simpl.
  - rewrite (endpointHandler_public _ _ _ _ Hp), (newContextHandler_not_allowed _ _ _ Hna).
    done.
  - rewrite (endpointHandler_protected _ _ _ _ Hp).
    destruct (jwtmiddleware_CheckJWT _ _ _); [done|].
    by rewrite (newContextHandler_not_allowed _ _ _ Hna).
Qed.

(** C4, as amended.  A request to a protected endpoint, with a method the
    endpoint handles: if the JWT middleware rejects it, the middleware
    answers 401 and the handler is not invoked; if the middleware lets it
    through, the error of [jwt.ParseFromRequest] is dropped and the handler
    is invoked with whatever token that call returned stored in the
    context ([nil] when it returned none), after the locale was set; the
    handler's error, if any, becomes a 400 response. *)
Theorem protected_dispatch c endpoint req s handler :
  Public endpoint = false →
  Handlers endpoint !! Method req = Some handler →
  let s1 := endpointHandler c endpoint req s in
  match jwtmiddleware_CheckJWT (MOptions (middleware c)) (keys s) req with
  | Some msg =>
      trace s1 = trace s ++ [EvCheckJWT req] ∧
      rw s1 = rw s ++ [(StatusUnauthorized, msg)] ∧
      context s1 = context s
  | None =>
      let token :=
        (jwt_ParseFromRequest req
           (ValidationKeyGetter (MOptions (middleware (context s))) (keys s))).1 in
      let c1 := updateT (set_Token (context s) token) req in
      trace s1 =
        trace s ++ [EvCheckJWT req; EvParseFromRequest req; EvHandler (Method req) token] ∧
      context s1 = c1 ∧
      CToken c1 = token ∧
      rw s1 =
        match handler c1 (rw s) req with
        | (w, Some e) => w ++ [(StatusBadRequest, e)]
        | (w, None) => w
        end
  end.
Proof.
  intros Hp Hh. simpl. rewrite (endpointHandler_protected _ _ _ _ Hp).
  destruct (jwtmiddleware_CheckJWT _ _ _) as [msg|]; [done|].
  assert (Ha : IsAllowed (Handlers endpoint) req = true)
    by (apply IsAllowed_lookup; eauto).
  unfold newContextHandler. rewrite Ha, Hp, Hh. simpl.
  destruct (jwt_ParseFromRequest _ _) as [token e]. simpl.
  destruct (handler _ _ _) as [w [e1|]]; simpl; by rewrite <- !app_assoc.
Qed.

End Facts.

Import JWTDefaults.

(** C2, at an input where both key files are unreadable: [LoadSecureKeys]
    reports the failure, the package keys stay empty, and [Configure]
    nevertheless returns a nil error with both endpoints registered. *)
Theorem Configure_ignores_key_load_failure :
  LoadSecureKeys no_files "keys/app.rsa" "keys/app.rsa.pub" (pkeys package0)
    = (mkKeys [] [], Some "Error reading private key") ∧
  let '(p, r, err) :=
    Configure no_files package0 router0 "keys/app.rsa" "keys/app.rsa.pub" "/api" ∅ in
  err = None ∧ pkeys p = mkKeys [] [] ∧
  (λ cr, (λ e, e.1) <$> routes cr.2) <$> r
    = Some ["/account/reset-password"; "/account/me"].
Proof. vm_compute. done. Qed.

(** C3 fails as stated: GET on a protected endpoint that handles only
    POST, sent without a credential, is answered 401 by the JWT
    middleware, which ran before the method check; the same request on a
    public endpoint is answered 405. *)
Lemma method_check_first_counterexample :
  let req := anonymous "GET" in
  IsAllowed (Handlers protected_endpoint) req = false ∧
  IsAllowed (Handlers public_endpoint) req = false ∧
  rw (endpointHandler ctx0 protected_endpoint req srv0)
    = [(401, "Required authorization token not found")] ∧
  trace (endpointHandler ctx0 protected_endpoint req srv0) = [EvCheckJWT req] ∧
  rw (endpointHandler ctx0 public_endpoint req srv0) = [(405, "Method not allowed")].
Proof. vm_compute. done. Qed.

Lemma method_check_after_middleware_witness :
  let req := with_bearer "GET" (sign pem) in
  let s1 := endpointHandler ctx0 protected_endpoint req srv0 in
  context s1 = context srv0 ∧
  trace s1 = trace srv0 ++ [EvCheckJWT req] ∧
  rw s1 = rw srv0 ++ [(StatusMethodNotAllowed, "Method not allowed")].
Proof.
  intros req.
  exact (method_check_after_middleware ctx0 protected_endpoint req srv0 eq_refl).
Defined.

(** C4 fails as stated: POST on a protected endpoint, without a credential
    or with one that does not verify, is answered 401 by the JWT
    middleware and the handler is never invoked. *)
Lemma protected_dispatch_counterexample :
  Handlers protected_endpoint !! "POST" = Some hello ∧
  (let s1 := endpointHandler ctx0 protected_endpoint (anonymous "POST") srv0 in
   rw s1 = [(401, "Required authorization token not found")] ∧
   trace s1 = [EvCheckJWT (anonymous "POST")]) ∧
  (let s1 := endpointHandler ctx0 protected_endpoint (with_bearer "POST" "bogus") srv0 in
   rw s1 = [(401, "signature is invalid")] ∧
   trace s1 = [EvCheckJWT (with_bearer "POST" "bogus")]).
Proof. vm_compute. done. Qed.

Lemma protected_dispatch_witness :
  let req := with_bearer "POST" (sign pem) in
  let s1 := endpointHandler ctx0 protected_endpoint req srv0 in
  let token := Some (mkToken (sign pem) true) in
  trace s1 = [EvCheckJWT req; EvParseFromRequest req; EvHandler "POST" token] ∧
  CToken (context s1) = token ∧
  rw s1 = [(200, "hello")].
Proof.
  intros req.
  destruct (protected_dispatch ctx0 protected_endpoint req srv0 hello eq_refl eq_refl)
    as (Ht & Hc & _ & Hw).
  simpl. rewrite Hc. split; [exact Ht|]. split; [reflexivity|exact Hw].
Defined.

End ContextFacts.

(* ===================================================================== *)
(** ** Properties of the password-reset handlers                          *)
(* ===================================================================== *)
Module AccountFacts.
Import Account.

Section Facts.
Context {Body : Type} `{Decoder Body} {World : Type} `{Services World}.

Implicit Types (body : Body) (s : Sys World).

(** C10.  A reset-password request whose decoded email does not match the
    email pattern is answered 400 "Invalid email address"; the handler
    makes no call at all on that path (no user lookup, no goroutine, no
    token, no mail) and the state is unchanged. *)
Theorem invalid_email_rejected_first body form s :
  Decode_ResetPasswordForm body = (form, None) →
  emailRegex_MatchString (FEmail form) = false →
  ResetPasswordResource_POST body = Ret (ctx_BadRequest "Invalid email address") ∧
  run (ResetPasswordResource_POST body) s
    = (mkResponse 400 (PString "Invalid email address"), s, []).
Proof.
  intros Hd Hm. unfold ResetPasswordResource_POST. rewrite Hd, Hm. done.
Qed.

(** C1, as amended.  A reset-password request with a well-formed email:
    when the lookup by email finds a user the response is 200 "Email sent"
    and the goroutine that issues the token and sends the mail is started;
    when the lookup fails the response is 400 "User not found", no goroutine
    is started, no token is issued and the state is unchanged. *)
Theorem reset_password_by_lookup body form s :
  Decode_ResetPasswordForm body = (form, None) →
  emailRegex_MatchString (FEmail form) = true →
  match users_GetByEmail (world s) (FEmail form) with
  | Ok user =>
      run (ResetPasswordResource_POST body) s
        = (mkResponse 200 (PString "Email sent"),
           mkSys (world s) (errlog s) (spawned s ++ [user]),
           [(UserService_GetByEmail (FEmail form), true);
            (Go_sendResetPasswordEmail user, true)])
  | Err _ =>
      run (ResetPasswordResource_POST body) s
        = (mkResponse 400 (PString "User not found"), s,
           [(UserService_GetByEmail (FEmail form), false)])
  end.
Proof.
  intros Hd Hm. unfold ResetPasswordResource_POST. rewrite Hd, Hm. simpl.
  by destruct (users_GetByEmail (world s) (FEmail form)).
Qed.

(** C6.  A complete request that decodes and whose two passwords differ is
    answered 400 "Passwords mismatch"; the handler makes no call on that
    path, so the state is unchanged and every token is what it was. *)
Theorem passwords_mismatch_no_effect body form s :
  Decode_ChangePasswordForm body = (form, None) →
  FPassword form ≠ FPasswordAgain form →
  let '(resp, s1, calls) := run (CompleteResource_POST body) s in
  resp = mkResponse 400 (PString "Passwords mismatch") ∧
  calls = [] ∧
  s1 = s ∧
  ∀ key, tokens_GetByKey (world s1) key = tokens_GetByKey (world s) key.
Proof.
  intros Hd Hne. unfold CompleteResource_POST. rewrite Hd.
  apply String.eqb_neq in Hne. rewrite Hne. done.
Qed.

(** Whatever the decoder says about the rest of the body, a complete
    request whose decoded passwords differ is answered 400 without a call. *)
Lemma mismatch_or_undecodable_no_effect body s :
  let '(form, _) := Decode_ChangePasswordForm body in
  FPassword form ≠ FPasswordAgain form →
  ∃ msg, run (CompleteResource_POST body) s = (mkResponse 400 (PString msg), s, []).
Proof.
  unfold CompleteResource_POST.
  destruct (Decode_ChangePasswordForm body) as [form [e|]]; intros Hne.
  - by eexists.
  - apply String.eqb_neq in Hne. rewrite Hne. by eexists.
Qed.

(** The goroutine started by the request step begins by creating a token
    for the user it was given; without it no token is created. *)
Lemma sendResetPasswordEmail_creates user s :
  head (run (sendResetPasswordEmail user) s).2 =
    Some (ResetTokenService_Create (Id user),
          is_Ok (tokens_Create (world s) (Id user)).2).
Proof.
  unfold sendResetPasswordEmail. simpl.
  destruct (tokens_Create (world s) (Id user)) as [w [t|e]]; simpl; [|done].
  by destruct (mailer_Send w _) as [w1 [e|]].
Qed.

(** The validate step in one equation. *)
Lemma ValidateKeyResource_POST_run body form s :
  Decode_ValidateKeyForm body = (form, None) →
  (run (ValidateKeyResource_POST body) s).1 =
    (match accepted s (FKey form) with
     | Some t => ctx_OK (PValidKey (mkValidKey (TUserId t) (FKey form)))
     | None => invalid_key
     end, s).
Proof.
  intros Hd. unfold ValidateKeyResource_POST, accepted. rewrite Hd. simpl.
  destruct (tokens_GetByKey (world s) (FKey form)) as [t|e]; simpl; [|done].
  by destruct (Valid (time_Now (world s)) t).
Qed.

(** C7.  A validate-key request that decodes is answered with the one
    error 400 "Invalid Key" both when the lookup by key fails and when the
    token found is not valid; otherwise with 200 and the token's user
    identifier together with the key that was supplied.  The state is
    unchanged in every case. *)
Theorem validate_key_outcomes body form s :
  Decode_ValidateKeyForm body = (form, None) →
  let '(resp, s1, _) := run (ValidateKeyResource_POST body) s in
  s1 = s ∧
  match tokens_GetByKey (world s) (FKey form) with
  | Err _ => resp = mkResponse 400 (PString "Invalid Key")
  | Ok t =>
      if Valid (time_Now (world s)) t
      then resp = mkResponse 200 (PValidKey (mkValidKey (TUserId t) (FKey form)))
      else resp = mkResponse 400 (PString "Invalid Key")
  end.
Proof.
  intros Hd. pose proof (ValidateKeyResource_POST_run body form s Hd) as Hr.
  destruct (run (ValidateKeyResource_POST body) s) as [[resp s1] calls].
  simpl in Hr. injection Hr as -> ->. split; [done|]. unfold accepted.
  destruct (tokens_GetByKey (world s) (FKey form)) as [t|e]; [|done].
  by destruct (Valid (time_Now (world s)) t).
Qed.

(** The complete step rejects with "Invalid Key" exactly when the key is
    not accepted. *)
Lemma CompleteResource_POST_invalid_key body form s :
  Decode_ChangePasswordForm body = (form, None) →
  FPassword form = FPasswordAgain form →
  (run (CompleteResource_POST body) s).1.1 = invalid_key ↔
  accepted s (Key (FValidKey form)) = None.
Proof.
  intros Hd Heq. unfold CompleteResource_POST, accepted. rewrite Hd.
  apply String.eqb_eq in Heq. rewrite Heq. simpl.
  destruct (tokens_GetByKey (world s) _) as [t|e]; simpl; [|done].
  destruct (Valid (time_Now (world s)) t); simpl; [|done].
  destruct (users_GetById (world s) (TUserId t)) as [u|e]; simpl; [|done].
  destruct (password_Encode u (FPassword form)) as [u1|e]; simpl; [|done].
  destruct (users_Update (world s) u1) as [w1 [e|]]; simpl; [done|].
  destruct (tokens_Update w1 _) as [w2 [e|]]; simpl; done.
Qed.

(** C8.  At the same state and for the same key, the complete step (given
    matching passwords) answers "Invalid Key" exactly when the validate
    step does, and both begin with the same two calls: the lookup by key
    and, if it succeeds, [Valid()] on the token found. *)
Theorem complete_revalidates_as_validate vbody vform cbody cform s :
  Decode_ValidateKeyForm vbody = (vform, None) →
  Decode_ChangePasswordForm cbody = (cform, None) →
  FPassword cform = FPasswordAgain cform →
  Key (FValidKey cform) = FKey vform →
  let '(vresp, _, vcalls) := run (ValidateKeyResource_POST vbody) s in
  let '(cresp, _, ccalls) := run (CompleteResource_POST cbody) s in
  (vresp = mkResponse 400 (PString "Invalid Key")
     ↔ cresp = mkResponse 400 (PString "Invalid Key")) ∧
  vcalls = take 2 ccalls.
Proof.
  intros Hv Hc Heq Hk.
  unfold ValidateKeyResource_POST, CompleteResource_POST. rewrite Hv, Hc, Hk.
  apply String.eqb_eq in Heq. rewrite Heq. simpl.
  destruct (tokens_GetByKey (world s) (FKey vform)) as [t|e]; simpl; [|done].
  destruct (Valid (time_Now (world s)) t); simpl; [|done].
  destruct (users_GetById (world s) (TUserId t)) as [u|e]; simpl; [|done].
  destruct (password_Encode u (FPassword cform)) as [u1|e]; simpl; [|done].
  destruct (users_Update (world s) u1) as [w1 [e|]]; simpl; [done|].
  destruct (tokens_Update w1 _) as [w2 [e|]]; simpl; done.
Qed.

(** Case analysis on the next result a handler run depends on. *)
Ltac next_case Hrun :=
  match type of Hrun with
  | context [match ?x with _ => _ end] =>
      lazymatch x with
      | context [run] => fail
      | _ => destruct x eqn:?; simpl in Hrun
      end
  end.

Ltac not_in_log Hin :=
  repeat (apply elem_of_cons in Hin as [Hin|Hin]; [discriminate Hin|]);
  by apply elem_of_nil in Hin.

(** C5.  In a run of the complete step, a token update occurs only
    directly after a user update that succeeded, with no token update
    before it; the token written is [Inactive]; the response is then 200
    with the user that was written, whether or not the token update
    succeeded; and when it failed, the failure is logged. *)
Theorem token_invalidated_after_user_update body s resp s1 calls token ok :
  run (CompleteResource_POST body) s = (resp, s1, calls) →
  (ResetTokenService_Update token, ok) ∈ calls →
  ∃ user pre post,
    calls = pre ++ [(UserService_Update user, true);
                    (ResetTokenService_Update token, ok)] ++ post ∧
    Forall (λ e, ∀ t, e.1 ≠ ResetTokenService_Update t) pre ∧
    State token = ResetTokenInactive ∧
    resp = mkResponse 200 (PUser user) ∧
    if ok then post = [] ∧ errlog s1 = errlog s
    else ∃ e, post = [(Log_Errorf ("Unable to invalidate token: " +:+ e), true)] ∧
              errlog s1 = errlog s ++ ["Unable to invalidate token: " +:+ e].
Proof.
  intros Hrun Hin. unfold CompleteResource_POST in Hrun.
  repeat next_case Hrun; simplify_eq; try (not_in_log Hin).
  all: do 5 (apply elem_of_cons in Hin as [Hin|Hin]; [discriminate Hin|]).
  all: apply elem_of_cons in Hin as [Hin|Hin]; [|not_in_log Hin].
  all: injection Hin as -> ->.
  all: match goal with
       | |- ∃ _ _ _, ?a :: ?b :: ?c :: ?d :: _ = _ ∧ _ =>
           eexists _, [a; b; c; d], _
       end.
  all: split; [reflexivity|].
  all: split; [by repeat constructor|].
  all: split; [reflexivity|]; split; [reflexivity|].
  all: repeat match goal with
       | Hp : (let '(_, _) := ?x in _) = _ |- _ => destruct x; simplify_eq/=
       end.
  all: eauto.
Qed.

(** A complete request whose key is not accepted changes nothing. *)
Lemma CompleteResource_POST_rejected body form s :
  Decode_ChangePasswordForm body = (form, None) →
  FPassword form = FPasswordAgain form →
  accepted s (Key (FValidKey form)) = None →
  (run (CompleteResource_POST body) s).1 = (invalid_key, s).
Proof.
  intros Hd Heq. unfold CompleteResource_POST, accepted. rewrite Hd.
  apply String.eqb_eq in Heq. rewrite Heq. simpl.
  destruct (tokens_GetByKey (world s) _) as [t|e]; simpl; [|done].
  by destruct (Valid (time_Now (world s)) t).
Qed.

(** *** Schedules *)

Lemma interleave_app {A} (sch1 sch2 : list nat) (pool : list (Prog A)) s :
  interleave (sch1 ++ sch2) pool s =
    let '(pool1, s1) := interleave sch1 pool s in interleave sch2 pool1 s1.
Proof.
  revert pool s. induction sch1 as [|i sch1 IH]; intros pool s; simpl; [done|].
  destruct (pool !! i) as [p|]; [|apply IH].
  destruct (step p s) as [p1 s1]. apply IH.
Qed.

(** Scheduling one goroutine as many times as it makes calls runs it to
    its end, exactly as [run] does. *)
Lemma interleave_run {A} (p : Prog A) (pool : list (Prog A)) (i : nat) s :
  pool !! i = Some p →
  interleave (replicate (length (run p s).2) i) pool s =
    (<[i := Ret (run p s).1.1]> pool, (run p s).1.2).
Proof.
  revert pool s. induction p as [a|o k IH]; intros pool s Hi; simpl.
  - by rewrite list_insert_id.
  - destruct (perform o s) as [r s1] eqn:Hp.
    specialize (IH r (<[i := k r]> pool) s1).
    destruct (run (k r) s1) as [[a s2] tr]. simpl in *.
    rewrite Hi. simpl. rewrite Hp, IH.
    + by rewrite list_insert_insert_eq.
    + apply list_lookup_insert_eq. by eapply lookup_lt_Some.
Qed.

(** The serial schedule serves the requests one after the other. *)
Lemma interleave_serial_from {A} (served rest : list (Prog A)) s :
  interleave (serial_schedule (length served) rest s) (served ++ rest) s =
    (served ++ (Ret <$> (run_serial rest s).1), (run_serial rest s).2).
Proof.
  revert served s. induction rest as [|p rest IH]; intros served s; simpl.
  { by rewrite app_nil_r. }
  pose proof (interleave_run p (served ++ p :: rest) (length served) s) as Hrun.
  destruct (run p s) as [[a s1] calls]. simpl in Hrun.
  rewrite interleave_app, Hrun by (by apply list_lookup_middle).
  specialize (IH (served ++ [Ret a]) s1).
  rewrite length_app, <- app_assoc in IH. simpl in IH.
  replace (length served + 1)%nat with (S (length served)) in IH by lia.
  rewrite insert_app_r_alt, Nat.sub_diag by done. simpl.
  rewrite IH. destruct (run_serial rest s1) as [res s2]. simpl.
  by rewrite <- app_assoc.
Qed.

Lemma interleave_serial {A} (pool : list (Prog A)) s :
  interleave (serial_schedule 0 pool s) pool s =
    (Ret <$> (run_serial pool s).1, (run_serial pool s).2).
Proof. apply (interleave_serial_from [] pool s). Qed.

(** Whatever the stores do on writes: if two complete requests for an
    accepted key each make their lookup and [Valid()] call before either
    goes on, both have passed the token check and are about to fetch the
    user; the state is still the one they started from. *)
Lemma both_pass_token_check body1 body2 k t s :
  completes k body1 →
  completes k body2 →
  accepted s k = Some t →
  ∃ k1 k2,
    interleave [0; 0; 1; 1]%nat
      [CompleteResource_POST body1; CompleteResource_POST body2] s
    = ([Do (UserService_GetById (TUserId t)) k1;
        Do (UserService_GetById (TUserId t)) k2], s).
Proof.
  intros (f1 & Hd1 & He1 & Hk1) (f2 & Hd2 & He2 & Hk2) Hacc.
  unfold accepted in Hacc.
  destruct (tokens_GetByKey (world s) k) as [t1|e] eqn:Hget; [|done].
  destruct (Valid (time_Now (world s)) t1) eqn:Hv; [|done].
  injection Hacc as ->.
  unfold CompleteResource_POST. rewrite Hd1, Hd2, Hk1, Hk2.
  apply String.eqb_eq in He1, He2. rewrite He1, He2. simpl.
  rewrite Hget. simpl. rewrite Hv. simpl.
  rewrite Hget. simpl. rewrite Hv. simpl. eauto.
Qed.

(** A complete request on the path where every step succeeds: the
    response carries the encoded user and the state holds the worlds the
    two updates returned, with nothing logged. *)
Lemma CompleteResource_POST_success body form token owner user w1 w2 s :
  Decode_ChangePasswordForm body = (form, None) →
  FPassword form = FPasswordAgain form →
  accepted s (Key (FValidKey form)) = Some token →
  users_GetById (world s) (TUserId token) = Ok owner →
  password_Encode owner (FPassword form) = Ok user →
  users_Update (world s) user = (w1, None) →
  tokens_Update w1 (set_State token ResetTokenInactive) = (w2, None) →
  (run (CompleteResource_POST body) s).1
    = (ctx_OK (PUser user), mkSys w2 (errlog s) (spawned s)).
Proof.
  intros Hd Heq Hacc Hu He Huu Htu. unfold accepted in Hacc.
  destruct (tokens_GetByKey (world s) _) as [t1|e] eqn:Hget; [|done].
  destruct (Valid (time_Now (world s)) t1) eqn:Hv; [|done].
  injection Hacc as ->.
  unfold CompleteResource_POST. rewrite Hd.
  apply String.eqb_eq in Heq. rewrite Heq. simpl.
  rewrite Hget. simpl. rewrite Hv. simpl. rewrite Hu. simpl. rewrite He. simpl.
  rewrite Huu. simpl. by rewrite Htu.
Qed.

(** Once the key is no longer accepted, every further complete request
    for it is answered "Invalid Key" and changes nothing. *)
Lemma rejected_from_then_on k (bodies : list Body) s :
  accepted s k = None →
  Forall (completes k) bodies →
  run_serial (CompleteResource_POST <$> bodies) s
    = (replicate (length bodies) invalid_key, s).
Proof.
  intros Hrej Hall. induction Hall as [|body bodies (form & Hd & Heq & Hkey) _ IH].
  { done. }
  csimpl. pose proof (CompleteResource_POST_rejected body form s Hd Heq) as Hrun.
  rewrite Hkey in Hrun. specialize (Hrun Hrej).
  destruct (run (CompleteResource_POST body) s) as [[resp s1] calls].
  simpl in Hrun. injection Hrun as -> ->. by rewrite IH.
Qed.

(** C9, as amended.  N ≥ 2 complete requests for the same valid key, each
    with its two passwords equal, served without interleaving (each makes
    all its calls before the next starts), for any implementation of the
    stores: if for the first request the token's owner is found, the
    password encoding, the user update and the token update succeed, and
    the token service afterwards returns for the key the token that was
    written, then the first request reports the password change and the
    other N − 1 are answered "Invalid Key". *)
Theorem serial_completions_spend_once body form (bodies : list Body)
    k token owner user w1 w2 s :
  Decode_ChangePasswordForm body = (form, None) →
  FPassword form = FPasswordAgain form →
  Key (FValidKey form) = k →
  Forall (completes k) bodies →
  accepted s k = Some token →
  users_GetById (world s) (TUserId token) = Ok owner →
  password_Encode owner (FPassword form) = Ok user →
  users_Update (world s) user = (w1, None) →
  tokens_Update w1 (set_State token ResetTokenInactive) = (w2, None) →
  tokens_GetByKey w2 k = Ok (set_State token ResetTokenInactive) →
  let pool := CompleteResource_POST <$> body :: bodies in
  returned <$> (interleave (serial_schedule 0 pool s) pool s).1
    = Some (ctx_OK (PUser user)) :: replicate (length bodies) (Some invalid_key).
Proof.
  intros Hd Heq Hk Hall Hacc Hu He Huu Htu Hback pool. unfold pool.
  rewrite interleave_serial. csimpl.
  rewrite <- Hk in Hacc.
  pose proof (CompleteResource_POST_success body form token owner user w1 w2 s
                Hd Heq Hacc Hu He Huu Htu) as Hrun.
  destruct (run (CompleteResource_POST body) s) as [[resp s1] calls].
  simpl in Hrun. injection Hrun as -> ->.
  assert (Hrej : accepted (mkSys w2 (errlog s) (spawned s)) k = None).
  { unfold accepted. simpl. by rewrite Hback. }
  rewrite (rejected_from_then_on k bodies _ Hrej Hall). simpl.
  by rewrite !fmap_replicate.
Qed.

End Facts.

End AccountFacts.

(* ===================================================================== *)
(** ** The handlers on the in-memory world                                *)
(* ===================================================================== *)
Module MemFacts.
Import Account AccountFacts Mem.

(** C9 fails as stated: two complete requests for the same valid key whose
    calls interleave (both look the token up before either writes) both
    report a password change, and neither is answered "Invalid Key". *)
Lemma concurrent_completions_counterexample :
  let first := CompleteResource_POST (complete_request "a" "a" 1 "k1") in
  let second := CompleteResource_POST (complete_request "b" "b" 1 "k1") in
  let schedule := [0; 0; 1; 1; 0; 0; 0; 0; 1; 1; 1; 1]%nat in
  accepted (start world0) "k1" = Some alice_token ∧
  returned <$> (interleave schedule [first; second] (start world0)).1
    = [Some (mkResponse 200 (PUser (mkUser 1 "a@x.com" "hash:a")));
       Some (mkResponse 200 (PUser (mkUser 1 "a@x.com" "hash:b")))].
Proof. vm_compute. done. Qed.

Lemma serial_completions_spend_once_witness :
  let body := complete_request "a" "a" 1 "k1" in
  let bodies := [complete_request "b" "b" 1 "k1"; complete_request "c" "c" 1 "k1"] in
  let pool := CompleteResource_POST <$> body :: bodies in
  returned <$> (interleave (serial_schedule 0 pool (start world0)) pool (start world0)).1
    = [Some (ctx_OK (PUser (mkUser 1 "a@x.com" "hash:a")));
       Some invalid_key; Some invalid_key].
Proof.
  intros body bodies.
  eapply (serial_completions_spend_once body
            (mkChangePasswordForm "a" "a" (mkValidKey 1 "k1")) bodies
            "k1" alice_token alice (mkUser 1 "a@x.com" "hash:a")).
  - reflexivity.
  - reflexivity.
  - reflexivity.
  - repeat constructor; eexists; (split; [reflexivity|]); split; reflexivity.
  - reflexivity.
  - reflexivity.
  - reflexivity.
  - reflexivity.
  - reflexivity.
  - vm_compute. reflexivity.
Defined.

(** C1 fails as stated: for a well-formed email that no user has, the
    response is 400 "User not found", not the 200 "Email sent" given for a
    registered email. *)
Lemma reset_password_counterexample :
  emailRegex_MatchString "b@x.com" = true ∧
  users_GetByEmail world0 "b@x.com" = Err "sql: no rows in result set" ∧
  (run (ResetPasswordResource_POST (reset_request "b@x.com")) (start world0)).1.1
    = mkResponse 400 (PString "User not found") ∧
  (run (ResetPasswordResource_POST (reset_request "a@x.com")) (start world0)).1.1
    = mkResponse 200 (PString "Email sent").
Proof. vm_compute. done. Qed.

Lemma reset_password_by_lookup_witness :
  run (ResetPasswordResource_POST (reset_request "a@x.com")) (start world0)
    = (mkResponse 200 (PString "Email sent"),
       mkSys world0 [] [alice],
       [(UserService_GetByEmail "a@x.com", true); (Go_sendResetPasswordEmail alice, true)]) ∧
  run (ResetPasswordResource_POST (reset_request "b@x.com")) (start world0)
    = (mkResponse 400 (PString "User not found"), start world0,
       [(UserService_GetByEmail "b@x.com", false)]).
Proof.
  split.
  - exact (reset_password_by_lookup (reset_request "a@x.com")
             (mkResetPasswordForm "a@x.com") (start world0) eq_refl eq_refl).
  - exact (reset_password_by_lookup (reset_request "b@x.com")
             (mkResetPasswordForm "b@x.com") (start world0) eq_refl eq_refl).
Defined.

Lemma invalid_email_rejected_first_witness :
  run (ResetPasswordResource_POST (reset_request "ax.com")) (start world0)
    = (mkResponse 400 (PString "Invalid email address"), start world0, []).
Proof.
  exact (proj2 (invalid_email_rejected_first (reset_request "ax.com")
                  (mkResetPasswordForm "ax.com") (start world0) eq_refl eq_refl)).
Defined.

Lemma passwords_mismatch_no_effect_witness :
  let '(resp, s1, calls) :=
    run (CompleteResource_POST (complete_request "a" "b" 1 "k1")) (start world0) in
  resp = mkResponse 400 (PString "Passwords mismatch") ∧
  calls = [] ∧
  s1 = start world0 ∧
  ∀ key, tokens_GetByKey (world s1) key = tokens_GetByKey world0 key.
Proof.
  apply (passwords_mismatch_no_effect (complete_request "a" "b" 1 "k1")
           (mkChangePasswordForm "a" "b" (mkValidKey 1 "k1")) (start world0)).
  - reflexivity.
  - discriminate.
Defined.

Lemma validate_key_outcomes_witness :
  (run (ValidateKeyResource_POST (validate_request "k1")) (start world0)).1.1
    = mkResponse 200 (PValidKey (mkValidKey 1 "k1")) ∧
  (run (ValidateKeyResource_POST (validate_request "k1")) (start world_late)).1.1
    = mkResponse 400 (PString "Invalid Key") ∧
  (run (ValidateKeyResource_POST (validate_request "k2")) (start world0)).1.1
    = mkResponse 400 (PString "Invalid Key").
Proof.
  pose proof (validate_key_outcomes (validate_request "k1") (mkValidateKeyForm "k1")
                (start world0) eq_refl) as H1.
  pose proof (validate_key_outcomes (validate_request "k1") (mkValidateKeyForm "k1")
                (start world_late) eq_refl) as H2.
  pose proof (validate_key_outcomes (validate_request "k2") (mkValidateKeyForm "k2")
                (start world0) eq_refl) as H3.
  split; [exact (proj2 H1)|]. split; [exact (proj2 H2)|exact (proj2 H3)].
Defined.

Lemma complete_revalidates_as_validate_witness :
  let '(vresp, _, vcalls) :=
    run (ValidateKeyResource_POST (validate_request "k1")) (start world_late) in
  let '(cresp, _, ccalls) :=
    run (CompleteResource_POST (complete_request "a" "a" 1 "k1")) (start world_late) in
  (vresp = mkResponse 400 (PString "Invalid Key")
     ↔ cresp = mkResponse 400 (PString "Invalid Key")) ∧
  vcalls = take 2 ccalls.
Proof.
  apply (complete_revalidates_as_validate
           (validate_request "k1") (mkValidateKeyForm "k1")
           (complete_request "a" "a" 1 "k1")
           (mkChangePasswordForm "a" "a" (mkValidKey 1 "k1"))
           (start world_late)); reflexivity.
Defined.

Lemma token_invalidated_after_user_update_witness :
  let r := run (CompleteResource_POST (complete_request "a" "a" 1 "k1")) (start world_down) in
  let token := set_State alice_token ResetTokenInactive in
  (ResetTokenService_Update token, false) ∈ r.2 ∧
  ∃ user pre post,
    r.2 = pre ++ [(UserService_Update user, true);
                  (ResetTokenService_Update token, false)] ++ post ∧
    Forall (λ e, ∀ t, e.1 ≠ ResetTokenService_Update t) pre ∧
    State token = ResetTokenInactive ∧
    r.1.1 = mkResponse 200 (PUser user) ∧
    ∃ e, post = [(Log_Errorf ("Unable to invalidate token: " +:+ e), true)] ∧
         errlog r.1.2 = errlog (start world_down) ++ ["Unable to invalidate token: " +:+ e].
Proof.
  intros r token.
  assert (Hin : (ResetTokenService_Update token, false) ∈ r.2).
  { vm_compute. do 5 (apply elem_of_cons; right). apply elem_of_cons. by left. }
  split; [exact Hin|].
  apply (token_invalidated_after_user_update
           (complete_request "a" "a" 1 "k1") (start world_down) r.1.1 r.1.2 r.2 token false);
    [|exact Hin].
  subst r. by destruct (run _ _) as [[resp s1] calls].
Defined.

End MemFacts.

(* ===================================================================== *)
(** ** Further properties of the dispatcher                               *)
(* ===================================================================== *)
Module DispatchFacts.
Import Context ContextFacts.

Section Facts.
Context {Value : Type} `{JWTLib}.

Implicit Types (c : Context Value) (s : Srv (Value := Value)).
Implicit Types (endpoint : Endpoint (Value := Value)) (req : Request).
Implicit Types (handlers : gmap string (ContextHandler (Value := Value))).
Implicit Types (p : Package (Value := Value)) (router : Router (Value := Value)).
Implicit Types (endpoints added : list (Endpoint (Value := Value))).

(** X1.  [IsAllowed] answers whether the request's method is one of the
    keys of the handler map. *)
Theorem IsAllowed_key_set handlers req :
  IsAllowed handlers req = bool_decide (Method req ∈ dom handlers).
Proof.
  apply eq_true_iff_eq.
  by rewrite IsAllowed_lookup, bool_decide_eq_true, elem_of_dom.
Qed.

(** X2.  Adding a handler for a method allows exactly that method in
    addition to those allowed before; the comparison is exact (case
    matters). *)
Theorem IsAllowed_insert handlers (method : string) (h : ContextHandler) req :
  IsAllowed (<[method := h]> handlers) req
    = String.eqb (Method req) method || IsAllowed handlers req.
Proof.
  apply eq_true_iff_eq.
  rewrite orb_true_iff, !IsAllowed_lookup, String.eqb_eq, lookup_insert_is_Some'.
  split; intros [?|?]; auto.
Qed.

(** X3.  [LoadSecureKeys] returns a nil error exactly when both files
    could be read; and when both can be read, it returns the nil error
    together with the contents of the two files as the two package keys. *)
Theorem LoadSecureKeys_nil_iff_loaded fs privateKeyPath publicKeyPath k :
  ((LoadSecureKeys fs privateKeyPath publicKeyPath k).2 = None ↔
   (fs privateKeyPath).2 = None ∧ (fs publicKeyPath).2 = None) ∧
  ((fs privateKeyPath).2 = None ∧ (fs publicKeyPath).2 = None →
   LoadSecureKeys fs privateKeyPath publicKeyPath k
     = (mkKeys (fs privateKeyPath).1 (fs publicKeyPath).1, None)).
Proof.
  unfold LoadSecureKeys.
  destruct (fs privateKeyPath) as [d1 [e1|]]; simpl.
  { split; [|intros [? _]; discriminate].
    split; [discriminate | intros [? _]; discriminate]. }
  destruct (fs publicKeyPath) as [d2 [e2|]]; simpl.
  { split; [|intros [_ ?]; discriminate].
    split; [discriminate | intros [_ ?]; discriminate]. }
  done.
Qed.

(** X4.  When the private key cannot be read, [LoadSecureKeys] stops
    there: the public key file is not consulted, [verifyKey] keeps the value
    it had, [signKey] is whatever the failed read returned, and the error
    names the private key. *)
Theorem LoadSecureKeys_private_failure fs fs' privateKeyPath publicKeyPath k :
  (fs privateKeyPath).2 ≠ None →
  fs' privateKeyPath = fs privateKeyPath →
  LoadSecureKeys fs' privateKeyPath publicKeyPath k
    = (mkKeys (fs privateKeyPath).1 (verifyKey k), Some "Error reading private key").
Proof.
  intros Hfail Hsame. unfold LoadSecureKeys. rewrite Hsame.
  by destruct (fs privateKeyPath) as [d1 [e1|]].
Qed.

(** X5.  When only the public key cannot be read, [signKey] has already
    been replaced by the private key file and [verifyKey] by whatever the
    failed read returned; the error names the public key. *)
Theorem LoadSecureKeys_public_failure fs privateKeyPath publicKeyPath k :
  (fs privateKeyPath).2 = None →
  (fs publicKeyPath).2 ≠ None →
  LoadSecureKeys fs privateKeyPath publicKeyPath k
    = (mkKeys (fs privateKeyPath).1 (fs publicKeyPath).1,
       Some "Error reading public key").
Proof.
  intros Hpriv Hpub. unfold LoadSecureKeys.
  destruct (fs privateKeyPath) as [d1 [e1|]]; [discriminate Hpriv|].
  by destruct (fs publicKeyPath) as [d2 [e2|]].
Qed.

(** X6.  Loading the keys again from the same files changes nothing:
    neither the keys nor the error. *)
Theorem LoadSecureKeys_idempotent fs privateKeyPath publicKeyPath k :
  LoadSecureKeys fs privateKeyPath publicKeyPath
    (LoadSecureKeys fs privateKeyPath publicKeyPath k).1
  = LoadSecureKeys fs privateKeyPath publicKeyPath k.
Proof.
  unfold LoadSecureKeys.
  destruct (fs privateKeyPath) as [d1 [e1|]]; simpl; [done|].
  by destruct (fs publicKeyPath) as [d2 [e2|]].
Qed.

(** X7.  [SignToken] signs with what the read of the private key file
    returned, whether or not [LoadSecureKeys] reported an error, and never
    with the public key. *)
Theorem SignToken_uses_private_key_file signedString fs privateKeyPath publicKeyPath k token :
  SignToken signedString (LoadSecureKeys fs privateKeyPath publicKeyPath k).1 token
    = signedString token (fs privateKeyPath).1.
Proof.
  unfold SignToken, LoadSecureKeys.
  destruct (fs privateKeyPath) as [d1 [e1|]]; simpl; [done|].
  by destruct (fs publicKeyPath) as [d2 [e2|]].
Qed.

(** [AddEndpoint] and [AddEndpoints] on the routes. *)
Lemma AddEndpoints_snoc c router endpoints endpoint :
  AddEndpoints c router (endpoints ++ [endpoint])
    = AddEndpoint c (AddEndpoints c router endpoints) endpoint.
Proof. unfold AddEndpoints. by rewrite fold_left_app. Qed.

Lemma AddEndpoints_unfold c router endpoints :
  AddEndpoints c router endpoints
    = mkRouter (prefix router)
        (routes router ++ ((λ e, (Path e, endpointHandler c e)) <$> endpoints)).
Proof.
  induction endpoints as [|endpoint endpoints IH] using rev_ind.
  { simpl. rewrite app_nil_r. by destruct router. }
  rewrite AddEndpoints_snoc, IH. unfold AddEndpoint, Router_Handle. simpl.
  by rewrite fmap_app, app_assoc.
Qed.

(** X8.  [AddEndpoints] keeps the routes already registered and appends
    one route per endpoint, in the order given, under the endpoint's path
    and with the handler [AddEndpoint] builds for it; the router's prefix
    is unchanged. *)
Theorem AddEndpoints_routes c router endpoints :
  routes (AddEndpoints c router endpoints)
    = routes router ++ ((λ e, (Path e, endpointHandler c e)) <$> endpoints) ∧
  prefix (AddEndpoints c router endpoints) = prefix router.
Proof. rewrite AddEndpoints_unfold. simpl. done. Qed.

Lemma Package_AddEndpoint_all p added :
  endpoints (fold_left Package_AddEndpoint added p) = endpoints p ++ added ∧
  pkeys (fold_left Package_AddEndpoint added p) = pkeys p.
Proof.
  revert p. induction added as [|e added IH]; intros p; simpl.
  { by rewrite app_nil_r. }
  destruct (IH (Package_AddEndpoint p e)) as [-> ->]. simpl.
  by rewrite <- app_assoc.
Qed.

Lemma Configure_unfold fs p router privKey pubKey pathPrefix (vars : gmap string Value) :
  let ctx := (New (Router_Subrouter router pathPrefix) vars).1.1 in
  Configure fs p router privKey pubKey pathPrefix vars
    = (mkPackage (LoadSecureKeys fs privKey pubKey (pkeys p)).1 (endpoints p),
       Some (ctx, mkRouter (prefix router +:+ pathPrefix)
                    ((λ e, (Path e, endpointHandler ctx e)) <$> endpoints p)),
       None).
Proof.
  unfold Configure.
  destruct (LoadSecureKeys fs privKey pubKey (pkeys p)) as [k e]. simpl.
  by rewrite AddEndpoints_unfold.
Qed.

(** X9.  Whatever the key files hold, [Configure] returns a nil error,
    leaves the package keys as [LoadSecureKeys] left them, and routes every
    endpoint of the package, in registration order, in a new router whose
    prefix is the given router's followed by [pathPrefix]; the routes of
    the given router are not copied.  The context it builds has no token
    and no locale yet. *)
Theorem Configure_routes_every_endpoint fs p router
    privKey pubKey pathPrefix (vars : gmap string Value) :
  ∃ ctx apiRouter,
    Configure fs p router privKey pubKey pathPrefix vars
      = (mkPackage (LoadSecureKeys fs privKey pubKey (pkeys p)).1 (endpoints p),
         Some (ctx, apiRouter), None) ∧
    prefix apiRouter = prefix router +:+ pathPrefix ∧
    routes apiRouter = (λ e, (Path e, endpointHandler ctx e)) <$> endpoints p ∧
    Vars ctx = vars ∧ CToken ctx = None ∧ T ctx = None.
Proof.
  eexists _, _. split; [apply Configure_unfold|]. simpl. done.
Qed.

(** X10.  Endpoints added to the package with [AddEndpoint] before
    [Configure] are all routed, after those already there and in the order
    they were added. *)
Theorem added_endpoints_are_routed fs p added router
    privKey pubKey pathPrefix (vars : gmap string Value) :
  (λ cr, (λ r, r.1) <$> routes cr.2)
    <$> (Configure fs (fold_left Package_AddEndpoint added p) router
           privKey pubKey pathPrefix vars).1.2
  = Some (Path <$> (endpoints p ++ added)).
Proof.
  rewrite Configure_unfold. simpl.
  destruct (Package_AddEndpoint_all p added) as [-> _].
  f_equal. rewrite <- list_fmap_compose. done.
Qed.

(** [newContextHandler] on a request whose method has a handler. *)
Lemma newContextHandler_handled endpoint req s handler :
  Handlers endpoint !! Method req = Some handler →
  let s0 :=
    if Public endpoint then s
    else
      emit (set_context s
              (set_Token (context s)
                 (jwt_ParseFromRequest req
                    (ValidationKeyGetter (MOptions (middleware (context s))) (keys s))).1))
        (EvParseFromRequest req) in
  let c1 := updateT (context s0) req in
  newContextHandler endpoint req s =
    mkSrv (keys s) c1
      (match handler c1 (rw s) req with
       | (w, Some e) => w ++ [(StatusBadRequest, e)]
       | (w, None) => w
       end)
      (trace s0 ++ [EvHandler (Method req) (CToken c1)]).
Proof.
  intros Hh. simpl.
  assert (Ha : IsAllowed (Handlers endpoint) req = true)
    by (apply IsAllowed_lookup; eauto).
  unfold newContextHandler. rewrite Ha, Hh. simpl.
  destruct (Public endpoint); simpl.
  - by destruct (handler _ _ _) as [w [e1|]].
  - destruct (jwt_ParseFromRequest _ _) as [token e]. simpl.
    by destruct (handler _ _ _) as [w [e1|]].
Qed.

(** X11.  A request to a public endpoint with a method the endpoint
    handles: no credential step takes place (neither the middleware nor
    [jwt.ParseFromRequest]), the token in the shared context is left as it
    was, the locale is set from the [Accept-Language] header (empty when
    absent) with default [en-US], and the handler is invoked once; its
    error, if any, is sent as a 400 after what the handler wrote. *)
Theorem public_dispatch c endpoint req s handler :
  Public endpoint = true →
  Handlers endpoint !! Method req = Some handler →
  let s1 := endpointHandler c endpoint req s in
  let c1 := updateT (context s) req in
  trace s1 = trace s ++ [EvHandler (Method req) (CToken (context s))] ∧
  context s1 = c1 ∧
  CToken c1 = CToken (context s) ∧
  T c1 = Some (mkT (default "" (Header req !! "Accept-Language")) "en-US") ∧
  rw s1 =
    match handler c1 (rw s) req with
    | (w, Some e) => w ++ [(StatusBadRequest, e)]
    | (w, None) => w
    end.
Proof.
  intros Hp Hh. simpl. rewrite (endpointHandler_public _ _ _ _ Hp).
  assert (Ha : IsAllowed (Handlers endpoint) req = true)
    by (apply IsAllowed_lookup; eauto).
  unfold newContextHandler. rewrite Ha, Hp, Hh. simpl.
  by destruct (handler _ _ _) as [w [e1|]].
Qed.

(** X12.  The token stored in the shared context outlives the request
    that set it: after a request to a protected endpoint has been let
    through, a later request to a public endpoint is handled with the
    token parsed from the earlier request still in the context. *)
Theorem token_outlives_request c endpoint1 req1 handler1 endpoint2 req2 handler2 s :
  Public endpoint1 = false →
  Handlers endpoint1 !! Method req1 = Some handler1 →
  jwtmiddleware_CheckJWT (MOptions (middleware c)) (keys s) req1 = None →
  Public endpoint2 = true →
  Handlers endpoint2 !! Method req2 = Some handler2 →
  let s1 := endpointHandler c endpoint1 req1 s in
  let s2 := endpointHandler c endpoint2 req2 (next_request s1) in
  let token :=
    (jwt_ParseFromRequest req1
       (ValidationKeyGetter (MOptions (middleware (context s))) (keys s))).1 in
  last (trace s2) = Some (EvHandler (Method req2) token) ∧
  CToken (context s2) = token.
Proof.
  intros Hp1 Hh1 Hpass Hp2 Hh2. simpl.
  rewrite (endpointHandler_public _ _ _ _ Hp2), (endpointHandler_protected _ _ _ _ Hp1).
  rewrite Hpass, (newContextHandler_handled _ _ _ _ Hh1), Hp1.
  rewrite (newContextHandler_handled _ _ _ _ Hh2), Hp2. simpl.
  by rewrite last_snoc.
Qed.

End Facts.

Import JWTDefaults.

Lemma LoadSecureKeys_nil_iff_loaded_witness :
  (LoadSecureKeys files "keys/app.rsa" "keys/app.rsa.pub" (mkKeys [] [])).2 = None ∧
  LoadSecureKeys files "keys/app.rsa" "keys/app.rsa.pub" (mkKeys [] [])
    = (mkKeys pem pem, None).
Proof.
  destruct (LoadSecureKeys_nil_iff_loaded files "keys/app.rsa" "keys/app.rsa.pub"
              (mkKeys [] [])) as [Hiff Hkeys].
  split.
  - apply Hiff. split; reflexivity.
  - apply Hkeys. split; reflexivity.
Defined.

Lemma LoadSecureKeys_private_failure_witness :
  LoadSecureKeys
    (λ path, if String.eqb path "keys/app.rsa.pub" then (pem, None)
             else ([], Some "open: no such file or directory"))
    "keys/app.rsa" "keys/app.rsa.pub" (mkKeys pem pem)
  = (mkKeys [] pem, Some "Error reading private key").
Proof.
  apply (LoadSecureKeys_private_failure no_files).
  - discriminate.
  - reflexivity.
Defined.

Lemma LoadSecureKeys_public_failure_witness :
  LoadSecureKeys
    (λ path, if String.eqb path "keys/app.rsa" then (pem, None)
             else ([], Some "open: no such file or directory"))
    "keys/app.rsa" "keys/app.rsa.pub" (mkKeys [] [])
  = (mkKeys pem [], Some "Error reading public key").
Proof.
  apply (LoadSecureKeys_public_failure
           (λ path, if String.eqb path "keys/app.rsa" then (pem, None)
                    else ([], Some "open: no such file or directory"))).
  - reflexivity.
  - discriminate.
Defined.

Lemma public_dispatch_witness :
  let req := with_bearer "POST" (sign pem) in
  let s1 := endpointHandler ctx0 public_endpoint req srv0 in
  trace s1 = [EvHandler "POST" None] ∧
  CToken (context s1) = None ∧
  T (context s1) = Some (mkT "" "en-US") ∧
  rw s1 = [(200, "hello")].
Proof.
  intros req.
  destruct (public_dispatch ctx0 public_endpoint req srv0 hello eq_refl eq_refl)
    as (Ht & Hc & Htok & HT & Hw).
  simpl. rewrite Hc. split; [exact Ht|]. split; [exact Htok|]. split; [exact HT|exact Hw].
Defined.

Lemma token_outlives_request_witness :
  let req1 := with_bearer "POST" (sign pem) in
  let req2 := anonymous "POST" in
  let s1 := endpointHandler ctx0 protected_endpoint req1 srv0 in
  let s2 := endpointHandler ctx0 public_endpoint req2 (next_request s1) in
  last (trace s2) = Some (EvHandler "POST" (Some (mkToken (sign pem) true))) ∧
  CToken (context s2) = Some (mkToken (sign pem) true).
Proof.
  intros req1 req2.
  exact (token_outlives_request ctx0 protected_endpoint req1 hello
           public_endpoint req2 hello srv0 eq_refl eq_refl eq_refl eq_refl eq_refl).
Defined.


End DispatchFacts.

(* ===================================================================== *)
(** ** Further properties of the password-reset handlers                  *)
(* ===================================================================== *)
Module HandlerFacts.
Import Account AccountFacts.

(** Case analysis on the next result a handler run depends on. *)
Ltac branch Hrun :=
  match type of Hrun with
  | context [match ?x with _ => _ end] =>
      lazymatch x with
      | context [run] => fail
      | _ => destruct x eqn:?; simpl in Hrun
      end
  end.

(** All the ways a log entry can be a member of an explicit call log. *)
Ltac log_cases Hin :=
  repeat (apply elem_of_cons in Hin as [Hin|Hin];
          [first [discriminate Hin | injection Hin as ?; subst]|]);
  try (by apply elem_of_nil in Hin).

(** Membership of an entry in an explicit call log. *)
Ltac in_log :=
  rewrite ?elem_of_cons; repeat (first [left; reflexivity | right]).

(** The effect of the writes on the parts of the state they leave alone. *)
Ltac open_writes :=
  repeat match goal with
         | Hp : (let '(_, _) := ?x in _) = _ |- _ => destruct x; simplify_eq/=
         end.

Section Facts.
Context {Body : Type} `{Decoder Body} {World : Type} `{Services World}.

Implicit Types (body : Body) (s : Sys World).

(** X14.  A body the JSON decoder rejects is answered 400 by each of the
    three handlers before any call is made; only the reset-password
    handler puts the decoder's message into the response. *)
Theorem undecodable_bodies body e s :
  (∀ form, Decode_ResetPasswordForm body = (form, Some e) →
     run (ResetPasswordResource_POST body) s
       = (mkResponse 400 (PString ("Could not query user: " +:+ e)), s, [])) ∧
  (∀ form, Decode_ValidateKeyForm body = (form, Some e) →
     run (ValidateKeyResource_POST body) s
       = (mkResponse 400 (PString "Unable to validate key"), s, [])) ∧
  (∀ form, Decode_ChangePasswordForm body = (form, Some e) →
     run (CompleteResource_POST body) s
       = (mkResponse 400 (PString "Unable to change the password"), s, [])).
Proof.
  unfold ResetPasswordResource_POST, ValidateKeyResource_POST, CompleteResource_POST.
  repeat split; intros form Hd; by rewrite Hd.
Qed.

(** X15.  The reset-password handler itself never writes: whatever the
    body, the world and the error log are as before, the only calls are the
    lookup by email and the start of the goroutine, the status is 200 or
    400, and a goroutine is started exactly when the status is 200. *)
Theorem reset_password_never_writes body s :
  let '(resp, s1, calls) := run (ResetPasswordResource_POST body) s in
  world s1 = world s ∧
  errlog s1 = errlog s ∧
  Forall (λ c, match c.1 with
               | UserService_GetByEmail _ | Go_sendResetPasswordEmail _ => True
               | _ => False
               end) calls ∧
  ((status resp = 200 ∧ ∃ user, spawned s1 = spawned s ++ [user]) ∨
   (status resp = 400 ∧ spawned s1 = spawned s)).
Proof.
  destruct (run (ResetPasswordResource_POST body) s) as [[resp s1] calls] eqn:Hrun.
  unfold ResetPasswordResource_POST in Hrun.
  repeat branch Hrun; simplify_eq/=.
  all: repeat split; try (repeat constructor; done).
  all: first [left; split; [reflexivity|by eexists] | right; by split].
Qed.

(** X16.  The goroutine started by the request step: it asks the token
    service for a token for the user's identifier; if that fails it logs
    the failure and sends nothing; otherwise it sends one mail, to the
    user's address, whose body is the reset link ending in the token's key,
    and logs a failure to send.  It reports nothing to its caller. *)
Theorem sendResetPasswordEmail_outcomes user s :
  match tokens_Create (world s) (Id user) with
  | (w, Err e) =>
      let line := "Unable to create a new reset token: " +:+ e in
      run (sendResetPasswordEmail user) s
        = ((), mkSys w (errlog s ++ [line]) (spawned s),
           [(ResetTokenService_Create (Id user), false); (Log_Errorf line, true)])
  | (w, Ok token) =>
      let m :=
        mkMessage "Go-SPA" [Email user] "Reset Password"
          ("Access this link: http://localhost:3000/#/reset-password/step2/"
             +:+ TKey token) in
      match mailer_Send w m with
      | (w1, None) =>
          run (sendResetPasswordEmail user) s
            = ((), mkSys w1 (errlog s) (spawned s),
               [(ResetTokenService_Create (Id user), true); (Mail_Send m, true)])
      | (w1, Some e) =>
          let line := "Unable to send email: " +:+ e in
          run (sendResetPasswordEmail user) s
            = ((), mkSys w1 (errlog s ++ [line]) (spawned s),
               [(ResetTokenService_Create (Id user), true); (Mail_Send m, false);
                (Log_Errorf line, true)])
      end
  end.
Proof.
  unfold sendResetPasswordEmail. simpl.
  destruct (tokens_Create (world s) (Id user)) as [w [token|e]]; simpl; [|done].
  by destruct (mailer_Send w _) as [w1 [e|]].
Qed.

(** The validate step never changes the state. *)
Lemma ValidateKeyResource_POST_read_only body s :
  (run (ValidateKeyResource_POST body) s).1.2 = s.
Proof.
  destruct (run (ValidateKeyResource_POST body) s) as [[resp s1] calls] eqn:Hrun.
  unfold ValidateKeyResource_POST in Hrun.
  by repeat branch Hrun; simplify_eq/=.
Qed.

(** X17.  Validating a key does not consume it: a validate request,
    whatever its body, answers 200 or 400 and leaves the state as it was,
    so the complete request served after it does exactly what it would
    have done alone. *)
Theorem validate_then_complete vbody cbody s :
  (status (run (ValidateKeyResource_POST vbody) s).1.1 = 200 ∨
   status (run (ValidateKeyResource_POST vbody) s).1.1 = 400) ∧
  run_serial [ValidateKeyResource_POST vbody; CompleteResource_POST cbody] s
    = ([(run (ValidateKeyResource_POST vbody) s).1.1;
        (run (CompleteResource_POST cbody) s).1.1],
       (run (CompleteResource_POST cbody) s).1.2).
Proof.
  split.
  - destruct (run (ValidateKeyResource_POST vbody) s) as [[resp s1] calls] eqn:Hrun.
    unfold ValidateKeyResource_POST in Hrun.
    repeat branch Hrun; simplify_eq/=; auto.
  - simpl. pose proof (ValidateKeyResource_POST_read_only vbody s) as Hro.
    destruct (run (ValidateKeyResource_POST vbody) s) as [[resp s1] calls].
    simpl in Hro. subst s1.
    by destruct (run (CompleteResource_POST cbody) s) as [[resp2 s2] calls2].
Qed.

(** X18.  The complete step does not read the [userId] of the capability
    object it is sent: two requests that agree on the passwords and on the
    key run identically, whatever user identifiers they carry.  The user
    whose password is changed is the owner recorded in the token. *)
Theorem complete_ignores_userId body1 body2 form1 form2 s :
  Decode_ChangePasswordForm body1 = (form1, None) →
  Decode_ChangePasswordForm body2 = (form2, None) →
  FPassword form1 = FPassword form2 →
  FPasswordAgain form1 = FPasswordAgain form2 →
  Key (FValidKey form1) = Key (FValidKey form2) →
  run (CompleteResource_POST body1) s = run (CompleteResource_POST body2) s.
Proof.
  intros Hd1 Hd2 Hp Hpa Hk. unfold CompleteResource_POST.
  by rewrite Hd1, Hd2, Hp, Hpa, Hk.
Qed.

(** X19.  The complete step reports success (status 200) exactly when its
    user update succeeded. *)
Theorem complete_success_iff_user_updated body s :
  status (run (CompleteResource_POST body) s).1.1 = 200 ↔
  ∃ user, (UserService_Update user, true) ∈ (run (CompleteResource_POST body) s).2.
Proof.
  destruct (run (CompleteResource_POST body) s) as [[resp s1] calls] eqn:Hrun.
  unfold CompleteResource_POST in Hrun.
  repeat branch Hrun; simplify_eq/=.
  all: split;
    [intros Hst; first [discriminate Hst | eexists; in_log]
    |intros [user Hin]; first [reflexivity | exfalso; log_cases Hin]].
Qed.

(** X20.  Unless the complete step got as far as calling the user update,
    it leaves the state exactly as it found it: a rejected request
    (mismatch, invalid key, unknown user, failed encoding) writes nothing
    and logs nothing. *)
Theorem complete_writes_only_after_checks body s :
  (run (CompleteResource_POST body) s).1.2 = s ∨
  ∃ user ok, (UserService_Update user, ok) ∈ (run (CompleteResource_POST body) s).2.
Proof.
  destruct (run (CompleteResource_POST body) s) as [[resp s1] calls] eqn:Hrun.
  unfold CompleteResource_POST in Hrun.
  repeat branch Hrun; simplify_eq/=.
  all: first [by left | right; eexists _, _; in_log].
Qed.

(** X21.  When the user update fails, the complete step answers 500
    "Could not change user password" and stops: the token is not updated
    and nothing is logged. *)
Theorem complete_user_update_failure body s resp s1 calls user :
  run (CompleteResource_POST body) s = (resp, s1, calls) →
  (UserService_Update user, false) ∈ calls →
  resp = mkResponse 500 (PString "Could not change user password") ∧
  last calls = Some (UserService_Update user, false) ∧
  (∀ token ok, (ResetTokenService_Update token, ok) ∉ calls) ∧
  errlog s1 = errlog s.
Proof.
  intros Hrun Hin. unfold CompleteResource_POST in Hrun.
  repeat branch Hrun; simplify_eq/=; log_cases Hin.
  open_writes. repeat split; try done.
  intros token ok Hin. log_cases Hin.
Qed.

(** X22.  When the complete step reports success, the two passwords were
    equal, the key was accepted, and the user written and returned is the
    token's owner, as the user service returned it, with the new password
    encoded into it; the token sent to the token service is that token
    marked [Inactive]. *)
Theorem complete_success_payload body s resp s1 calls :
  run (CompleteResource_POST body) s = (resp, s1, calls) →
  status resp = 200 →
  let form := (Decode_ChangePasswordForm body).1 in
  FPassword form = FPasswordAgain form ∧
  ∃ token owner user,
    accepted s (Key (FValidKey form)) = Some token ∧
    users_GetById (world s) (TUserId token) = Ok owner ∧
    password_Encode owner (FPassword form) = Ok user ∧
    resp = mkResponse 200 (PUser user) ∧
    (UserService_Update user, true) ∈ calls ∧
    ∃ ok, (ResetTokenService_Update (set_State token ResetTokenInactive), ok) ∈ calls.
Proof.
  intros Hrun Hst. unfold CompleteResource_POST in Hrun.
  repeat branch Hrun; simplify_eq/=; try discriminate Hst.
  all: match goal with
       | Hb : negb (String.eqb _ _) = false |- _ =>
           apply negb_false_iff, String.eqb_eq in Hb
       end.
  all: match goal with
       | Hv : negb (Valid _ _) = false |- _ => apply negb_false_iff in Hv
       end.
  all: split; [done|]; eexists _, _, _; unfold accepted.
  all: repeat match goal with Hr : _ = Ok _ |- _ => rewrite Hr; clear Hr end.
  all: match goal with Hv : Valid _ _ = true |- _ => rewrite Hv end.
  all: repeat split; try done; try in_log; eexists; in_log.
Qed.

(** A token update in a run of the complete step writes an [Inactive]
    token, and occurs only if the two passwords were equal. *)
Lemma token_update_is_inactive body s resp s1 calls token ok :
  run (CompleteResource_POST body) s = (resp, s1, calls) →
  (ResetTokenService_Update token, ok) ∈ calls →
  State token = ResetTokenInactive ∧
  FPassword (Decode_ChangePasswordForm body).1
    = FPasswordAgain (Decode_ChangePasswordForm body).1.
Proof.
  intros Hrun Hin. unfold CompleteResource_POST in Hrun.
  repeat branch Hrun; simplify_eq/=; log_cases Hin.
  all: match goal with
       | Hb : negb (String.eqb _ _) = false |- _ =>
           apply negb_false_iff, String.eqb_eq in Hb
       end.
  all: done.
Qed.

(** X23.  After a complete request whose token update succeeded, if the
    token service returns for the key the token that was written, both a
    validate request and a second complete request for that key are
    answered "Invalid Key" and change nothing, however much time is left
    before the token expires. *)
Theorem complete_then_validate_rejects cbody cform vbody vform s resp s1 calls token :
  Decode_ChangePasswordForm cbody = (cform, None) →
  Decode_ValidateKeyForm vbody = (vform, None) →
  FKey vform = Key (FValidKey cform) →
  run (CompleteResource_POST cbody) s = (resp, s1, calls) →
  (ResetTokenService_Update token, true) ∈ calls →
  tokens_GetByKey (world s1) (FKey vform) = Ok token →
  (run (ValidateKeyResource_POST vbody) s1).1 = (invalid_key, s1) ∧
  (run (CompleteResource_POST cbody) s1).1 = (invalid_key, s1).
Proof.
  intros Hc Hv Hk Hrun Hin Hget.
  destruct (token_update_is_inactive cbody s resp s1 calls token true Hrun Hin)
    as [Hinactive Heq].
  rewrite Hc in Heq. simpl in Heq.
  assert (Hrej : accepted s1 (FKey vform) = None).
  { unfold accepted. rewrite Hget. unfold Valid. by rewrite Hinactive. }
  split.
  - rewrite (ValidateKeyResource_POST_run vbody vform s1 Hv). by rewrite Hrej.
  - apply (CompleteResource_POST_rejected cbody cform s1 Hc Heq). by rewrite <- Hk.
Qed.

End Facts.

End HandlerFacts.

(** The handler properties at work on the in-memory world. *)
Module HandlerExamples.
Import Account AccountFacts HandlerFacts Mem.

Lemma undecodable_bodies_witness :
  let e := "invalid character looking for beginning of value" in
  run (ResetPasswordResource_POST (None : Body)) (start world0)
    = (mkResponse 400 (PString ("Could not query user: " +:+ e)), start world0, []) ∧
  run (ValidateKeyResource_POST (None : Body)) (start world0)
    = (mkResponse 400 (PString "Unable to validate key"), start world0, []) ∧
  run (CompleteResource_POST (None : Body)) (start world0)
    = (mkResponse 400 (PString "Unable to change the password"), start world0, []).
Proof.
  intros e.
  destruct (undecodable_bodies (None : Body) e (start world0)) as (H1 & H2 & H3).
  split; [exact (H1 _ eq_refl)|]. split; [exact (H2 _ eq_refl)|exact (H3 _ eq_refl)].
Defined.

Lemma complete_ignores_userId_witness :
  run (CompleteResource_POST (complete_request "a" "a" 1 "k1")) (start world0)
    = run (CompleteResource_POST (complete_request "a" "a" 999 "k1")) (start world0).
Proof.
  apply (complete_ignores_userId
           (complete_request "a" "a" 1 "k1") (complete_request "a" "a" 999 "k1")
           (mkChangePasswordForm "a" "a" (mkValidKey 1 "k1"))
           (mkChangePasswordForm "a" "a" (mkValidKey 999 "k1")));
    reflexivity.
Defined.

Lemma complete_user_update_failure_witness :
  let r := run (CompleteResource_POST (complete_request "a" "a" 1 "k1"))
             (start world_users_down) in
  let user := mkUser 1 "a@x.com" "hash:a" in
  r.1.1 = mkResponse 500 (PString "Could not change user password") ∧
  last r.2 = Some (UserService_Update user, false) ∧
  (∀ token ok, (ResetTokenService_Update token, ok) ∉ r.2) ∧
  errlog r.1.2 = [].
Proof.
  intros r user.
  apply (complete_user_update_failure
           (complete_request "a" "a" 1 "k1") (start world_users_down) r.1.1 r.1.2 r.2 user).
  - subst r. by destruct (run _ _) as [[resp s1] calls].
  - vm_compute. in_log.
Defined.

Lemma complete_success_payload_witness :
  let r := run (CompleteResource_POST (complete_request "a" "a" 1 "k1")) (start world0) in
  ∃ token owner user,
    accepted (start world0) "k1" = Some token ∧
    users_GetById world0 (TUserId token) = Ok owner ∧
    password_Encode owner "a" = Ok user ∧
    r.1.1 = mkResponse 200 (PUser user) ∧
    (UserService_Update user, true) ∈ r.2 ∧
    ∃ ok, (ResetTokenService_Update (set_State token ResetTokenInactive), ok) ∈ r.2.
Proof.
  intros r.
  refine (proj2 (complete_success_payload
                   (complete_request "a" "a" 1 "k1") (start world0) r.1.1 r.1.2 r.2 _ _)).
  - subst r. by destruct (run _ _) as [[resp s1] calls].
  - reflexivity.
Defined.

Lemma complete_then_validate_rejects_witness :
  let s1 := (run (CompleteResource_POST (complete_request "a" "a" 1 "k1"))
               (start world0)).1.2 in
  (run (ValidateKeyResource_POST (validate_request "k1")) s1).1 = (invalid_key, s1) ∧
  (run (CompleteResource_POST (complete_request "a" "a" 1 "k1")) s1).1 = (invalid_key, s1).
Proof.
  intros s1.
  pose (r := run (CompleteResource_POST (complete_request "a" "a" 1 "k1")) (start world0)).
  apply (complete_then_validate_rejects
           (complete_request "a" "a" 1 "k1")
           (mkChangePasswordForm "a" "a" (mkValidKey 1 "k1"))
           (validate_request "k1") (mkValidateKeyForm "k1")
           (start world0) r.1.1 r.1.2 r.2
           (set_State alice_token ResetTokenInactive)).
  - reflexivity.
  - reflexivity.
  - reflexivity.
  - subst r. by destruct (run _ _) as [[resp s2] calls].
  - vm_compute. in_log.
  - vm_compute. reflexivity.
Defined.

End HandlerExamples.
